(** * Proctoring sessions: the Next.js API routes over MongoDB

    A shallow embedding of the session and event routes of the frontend
    ([src/app/api/sessions/**/route.ts]), of the shared types
    ([src/lib/types.ts]) and of the score shown by the [ProctorMonitor]
    component, followed by the properties of the event pipeline.

    Conventions of the embedding.
    - A JavaScript number holding a count or a score is a [Z]; a confidence,
      which the routes only copy, is a [Q].
    - A string is the sequence of the bytes of its UTF-8 encoding.
    - A MongoDB collection is the list of its documents in insertion order;
      [findOne] and [updateOne] act on the first document that matches.
    - A route handler is a function from the database before the request to
      the database after it and the JSON response.  The store is taken to be
      reachable; the exceptions modelled are [request.json()] failing and a
      [null] among the elements of the events array.
    - [Date.now()] and [Math.random()] are read from an explicit [Entropy]
      supply, one reading per event of a batch. *)

From Stdlib Require Import ZArith QArith List String Ascii Bool Lia DecimalString.
Import ListNotations.

Close Scope Q_scope.
Local Open Scope string_scope.
Local Open Scope Z_scope.

(** ** Shared types ([lib/types.ts]) *)

(** A JavaScript [Date], kept symbolically: built from a JSON value by
    [new Date(v)], or from the clock by [new Date()].  [DateText] is a
    date field that holds the text a request sent, written unconverted. *)
Inductive Date : Type :=
| DateOf (src : string)
| DateAt (ms : Z)
| DateText (text : string).

Inductive Status : Type := active | completed.

Module DetectionEvent.
(** A document of the [events] collection. *)
Record t : Type := mk {
  id : string;
  sessionId : string;
  eventType : string;
  confidence : Q;
  timestamp : Date;
  details : string
}.

(** An element of the request array of the events route: the fields of a
    [DetectionEvent] as JSON carries them.  The union type of [eventType]
    is erased at run time, so any string can arrive; [timestamp] is still
    text; [sessionId] and [id], if sent, are overwritten by the handler
    and are left out. *)
Record json : Type := mkJson {
  j_eventType : string;
  j_confidence : Q;
  j_timestamp : string;
  j_details : string
}.
End DetectionEvent.

Module ProctorSession.
(** A document of the [sessions] collection. *)
Record t : Type := mk {
  sessionId : string;
  candidateName : string;
  startTime : Date;
  endTime : option Date;
  duration : Z;
  totalEvents : Z;
  lookingAwayCount : Z;
  noFaceCount : Z;
  multipleFaceCount : Z;
  unauthorizedObjectCount : Z;
  integrityScore : Z;
  status : Status;
  events : list DetectionEvent.t
}.
End ProctorSession.

(** The closed union of [DetectionEvent.eventType]. *)
Definition taxonomy : list string :=
  ["looking_away"; "no_face"; "multiple_faces"; "unauthorized_object"].

Definition inTaxonomy (eventType : string) : bool :=
  existsb (String.eqb eventType) taxonomy.

(** ** The store *)

(** [db.collection("sessions")] and [db.collection("events")]. *)
Record Db : Type := mkDb {
  collection_sessions : list ProctorSession.t;
  collection_events : list DetectionEvent.t
}.

Module Mongo.
(** [collection.findOne({ sessionId })] *)
Fixpoint findOne (sessionId : string) (c : list ProctorSession.t)
  : option ProctorSession.t :=
  match c with
  | [] => None
  | doc :: rest =>
      if String.eqb (ProctorSession.sessionId doc) sessionId
      then Some doc
      else findOne sessionId rest
  end.

(** [collection.updateOne({ sessionId }, update)], without [upsert]: the
    first matching document is rewritten; the result carries
    [matchedCount]. *)
Fixpoint updateOne (sessionId : string)
    (update : ProctorSession.t -> ProctorSession.t)
    (c : list ProctorSession.t) : list ProctorSession.t * Z :=
  match c with
  | [] => ([], 0)
  | doc :: rest =>
      if String.eqb (ProctorSession.sessionId doc) sessionId
      then (update doc :: rest, 1)
      else let (rest', matchedCount) := updateOne sessionId update rest in
           (doc :: rest', matchedCount)
  end.

Definition insertOne {A : Type} (doc : A) (c : list A) : list A := c ++ [doc].

Definition insertMany {A : Type} (docs : list A) (c : list A) : list A :=
  c ++ docs.

(** [collection.find({ sessionId })] on the events collection. *)
Definition find (sessionId : string) (c : list DetectionEvent.t)
  : list DetectionEvent.t :=
  filter (fun e => String.eqb (DetectionEvent.sessionId e) sessionId) c.
End Mongo.

(** ** Requests and responses *)

(** One reading of the clock and of the random generator:
    [Date.now()] and [Math.random().toString(36).substr(2, 9)]. *)
Record Entropy : Type := mkEntropy {
  now : Z;
  random : string
}.

(** [NextResponse.json(body)] and [NextResponse.json({ success: false,
    error }, { status })]. *)
Inductive Response (A : Type) : Type :=
| Success (body : A)
| Failure (status : Z) (error : string).
Arguments Success {A} body.
Arguments Failure {A} status error.

(** The decimal text of a number inside a template string. *)
Definition decimal (n : Z) : string := NilZero.string_of_int (Z.to_int n).

(** ** The score of the monitor component ([ProctorMonitor]) *)

Module ProctorMonitor.
Record SessionStats : Type := mkStats {
  duration : Z;
  totalEvents : Z;
  lookingAwayCount : Z;
  noFaceCount : Z;
  unauthorizedObjectCount : Z;
  multipleFaceCount : Z
}.

Definition calculateIntegrityScore (sessionStats : SessionStats) : Z :=
  let baseScore := 100 in
  let deductions :=
    lookingAwayCount sessionStats * 2 +
    noFaceCount sessionStats * 3 +
    multipleFaceCount sessionStats * 10 +
    unauthorizedObjectCount sessionStats * 15 in
  Z.max 0 (baseScore - deductions).
End ProctorMonitor.

(** ** [POST /api/sessions/[sessionId]/events] *)

Module EventsRoute.
(** What [request.json()] yields.  The elements of an array are event
    objects or [null]: [Array] is an array of objects only, [ArrayWithNull]
    an array whose first [null] comes after the objects [before]. *)
Inductive Body : Type :=
| Unparsable                                     (* request.json() throws *)
| NotArray                                       (* any JSON value but an array *)
| Array (events : list DetectionEvent.json)
| ArrayWithNull (before : list DetectionEvent.json)
    (after : list (option DetectionEvent.json)).

Record EventCounts : Type := mkCounts {
  lookingAwayCount : Z;
  noFaceCount : Z;
  multipleFaceCount : Z;
  unauthorizedObjectCount : Z
}.

Record Added : Type := mkAdded {
  eventsAdded : Z;
  integrityScore : Z
}.

(** The element built by the callback of [events.map]. *)
Definition withTimestamp (sessionId : string) (r : Entropy)
    (event : DetectionEvent.json) : DetectionEvent.t :=
  {| DetectionEvent.id :=
       sessionId ++ "_" ++ decimal (now r) ++ "_" ++ random r;
     DetectionEvent.sessionId := sessionId;
     DetectionEvent.eventType := DetectionEvent.j_eventType event;
     DetectionEvent.confidence := DetectionEvent.j_confidence event;
     DetectionEvent.timestamp := DateOf (DetectionEvent.j_timestamp event);
     DetectionEvent.details := DetectionEvent.j_details event |}.

(** [events.map(...)]: the [i]-th callback takes the [i]-th reading. *)
Fixpoint eventsWithTimestamp (sessionId : string) (env : nat -> Entropy)
    (i : nat) (events : list DetectionEvent.json) : list DetectionEvent.t :=
  match events with
  | [] => []
  | event :: rest =>
      withTimestamp sessionId (env i) event
        :: eventsWithTimestamp sessionId env (S i) rest
  end.

Definition noCounts : EventCounts := mkCounts 0 0 0 0.

(** The body of the [forEach] callback: a [switch] with no [default]. *)
Definition countEvent (eventCounts : EventCounts)
    (event : DetectionEvent.json) : EventCounts :=
  let eventType := DetectionEvent.j_eventType event in
  if String.eqb eventType "looking_away" then
    mkCounts (lookingAwayCount eventCounts + 1) (noFaceCount eventCounts)
      (multipleFaceCount eventCounts) (unauthorizedObjectCount eventCounts)
  else if String.eqb eventType "no_face" then
    mkCounts (lookingAwayCount eventCounts) (noFaceCount eventCounts + 1)
      (multipleFaceCount eventCounts) (unauthorizedObjectCount eventCounts)
  else if String.eqb eventType "multiple_faces" then
    mkCounts (lookingAwayCount eventCounts) (noFaceCount eventCounts)
      (multipleFaceCount eventCounts + 1) (unauthorizedObjectCount eventCounts)
  else if String.eqb eventType "unauthorized_object" then
    mkCounts (lookingAwayCount eventCounts) (noFaceCount eventCounts)
      (multipleFaceCount eventCounts) (unauthorizedObjectCount eventCounts + 1)
  else eventCounts.

(** [events.forEach(...)] run on the zeroed [eventCounts]. *)
Definition countEvents (events : list DetectionEvent.json) : EventCounts :=
  fold_left countEvent events noCounts.

(** The score the handler derives from [eventCounts]. *)
Definition scoreOf (eventCounts : EventCounts) : Z :=
  let baseScore := 100 in
  let deductions :=
    (lookingAwayCount eventCounts * 2) +
    (noFaceCount eventCounts * 3) +
    (multipleFaceCount eventCounts * 10) +
    (unauthorizedObjectCount eventCounts * 15) in
  Z.max 0 (baseScore - deductions).

(** The update document: [$inc] of five fields, [$set] of the score. *)
Definition applyUpdate (n : Z) (eventCounts : EventCounts) (score : Z)
    (doc : ProctorSession.t) : ProctorSession.t :=
  {| ProctorSession.sessionId := ProctorSession.sessionId doc;
     ProctorSession.candidateName := ProctorSession.candidateName doc;
     ProctorSession.startTime := ProctorSession.startTime doc;
     ProctorSession.endTime := ProctorSession.endTime doc;
     ProctorSession.duration := ProctorSession.duration doc;
     ProctorSession.totalEvents := ProctorSession.totalEvents doc + n;
     ProctorSession.lookingAwayCount :=
       ProctorSession.lookingAwayCount doc + lookingAwayCount eventCounts;
     ProctorSession.noFaceCount :=
       ProctorSession.noFaceCount doc + noFaceCount eventCounts;
     ProctorSession.multipleFaceCount :=
       ProctorSession.multipleFaceCount doc + multipleFaceCount eventCounts;
     ProctorSession.unauthorizedObjectCount :=
       ProctorSession.unauthorizedObjectCount doc
       + unauthorizedObjectCount eventCounts;
     ProctorSession.integrityScore := score;
     ProctorSession.status := ProctorSession.status doc;
     ProctorSession.events := ProctorSession.events doc |}.

Definition POST (db : Db) (sessionId : string) (body : Body)
    (env : nat -> Entropy) : Db * Response Added :=
  match body with
  | Unparsable => (db, Failure 500 "Failed to add events")
  | NotArray => (db, Failure 400 "Invalid events data")
  | Array events =>
      if (List.length events =? 0)%nat then
        (db, Failure 400 "Invalid events data")
      else
        let stamped := eventsWithTimestamp sessionId env 0 events in
        let events' := Mongo.insertMany stamped (collection_events db) in
        let eventCounts := countEvents events in
        let integrityScore := scoreOf eventCounts in
        let n := Z.of_nat (List.length events) in
        let sessions' :=
          fst (Mongo.updateOne sessionId
                 (applyUpdate n eventCounts integrityScore)
                 (collection_sessions db)) in
        (mkDb sessions' events', Success (mkAdded n integrityScore))
  | ArrayWithNull _ _ =>
      (* [event.timestamp] throws on [null] inside [events.map], before
         anything is written *)
      (db, Failure 500 "Failed to add events")
  end.
End EventsRoute.

(** ** [POST /api/sessions]: the session-creation branch *)

Module SessionsRoute.
(** The code points of a text, each as the bytes that encode it: the first
    byte of a group tells how many bytes the group has. *)
Fixpoint codePoints (s : string) : list string :=
  match s with
  | EmptyString => []
  | String c1 rest1 =>
      if (N_of_ascii c1 <? 192)%N then String c1 "" :: codePoints rest1
      else
        match rest1 with
        | EmptyString => [String c1 ""]
        | String c2 rest2 =>
            if (N_of_ascii c1 <? 224)%N then
              String c1 (String c2 "") :: codePoints rest2
            else
              match rest2 with
              | EmptyString => [String c1 (String c2 "")]
              | String c3 rest3 =>
                  if (N_of_ascii c1 <? 240)%N then
                    String c1 (String c2 (String c3 "")) :: codePoints rest3
                  else
                    match rest3 with
                    | EmptyString => [String c1 (String c2 (String c3 ""))]
                    | String c4 rest4 =>
                        String c1 (String c2 (String c3 (String c4 "")))
                          :: codePoints rest4
                    end
              end
        end
  end.

(** The white space and line terminators of ECMAScript: U+0009 to U+000D,
    U+0020, U+00A0, U+1680, U+2000 to U+200A, U+2028, U+2029, U+202F,
    U+205F, U+3000 and U+FEFF, by the bytes of their encoding. *)
Definition isWhiteSpace (codePoint : string) : bool :=
  match map N_of_ascii (list_ascii_of_string codePoint) with
  | [n] => ((9 <=? n) && (n <=? 13) || (n =? 32))%N
  | [194; 160] => true
  | [225; 154; 128] => true
  | [226; 128; n] =>
      ((128 <=? n) && (n <=? 138) || (n =? 168) || (n =? 169) || (n =? 175))%N
  | [226; 129; 159] => true
  | [227; 128; 128] => true
  | [239; 187; 191] => true
  | _ => false
  end%N.

Fixpoint dropWhile {A : Type} (p : A -> bool) (l : list A) : list A :=
  match l with
  | [] => []
  | x :: rest => if p x then dropWhile p rest else l
  end.

Definition trimStart (codePoints : list string) : list string :=
  dropWhile isWhiteSpace codePoints.

Definition trimEnd (codePoints : list string) : list string :=
  rev (dropWhile isWhiteSpace (rev codePoints)).

(** [String.prototype.trim] *)
Definition trim (s : string) : string :=
  String.concat "" (trimEnd (trimStart (codePoints s))).

(** The request data that reach the first branch or fall through with no
    [sessionId]: a JSON string, or an object without a [sessionId] whose
    [candidateName] may be absent.  (The branch that saves a finished
    session, taken when a [sessionId] is sent, is modelled further down
    with the whole handler.) *)
Inductive RequestData : Type :=
| Text (candidateName : string)
| Object (candidateName : option string).

Record Created : Type := mkCreated {
  sessionId : string;
  candidateName : string;
  startTime : Date
}.

(** The document literal of the handler. *)
Definition newSession (sessionId candidateName : string) (startTime : Date)
  : ProctorSession.t :=
  {| ProctorSession.sessionId := sessionId;
     ProctorSession.candidateName := candidateName;
     ProctorSession.startTime := startTime;
     ProctorSession.endTime := None;
     ProctorSession.duration := 0;
     ProctorSession.totalEvents := 0;
     ProctorSession.lookingAwayCount := 0;
     ProctorSession.noFaceCount := 0;
     ProctorSession.multipleFaceCount := 0;
     ProctorSession.unauthorizedObjectCount := 0;
     ProctorSession.integrityScore := 100;
     ProctorSession.status := active;
     ProctorSession.events := [] |}.

Definition create (db : Db) (candidateName : string) (r : Entropy)
    (clock : Z) : Db * Response Created :=
  if String.eqb (trim candidateName) "" then
    (db, Failure 400 "Candidate name is required")
  else
    let sessionId := "session_" ++ decimal (now r) ++ "_" ++ random r in
    let session := newSession sessionId (trim candidateName) (DateAt clock) in
    (mkDb (Mongo.insertOne session (collection_sessions db))
          (collection_events db),
     Success (mkCreated sessionId candidateName (DateAt clock))).

(** [r] is read for the session id, [clock] by [new Date()]. *)
Definition POST (db : Db) (requestData : RequestData) (r : Entropy)
    (clock : Z) : Db * Response Created :=
  match requestData with
  | Text candidateName => create db candidateName r clock
  | Object (Some candidateName) =>
      if String.eqb candidateName "" then
        (db, Failure 400 "Invalid request data")
      else create db candidateName r clock
  | Object None => (db, Failure 400 "Invalid request data")
  end.
End SessionsRoute.

(** ** [GET] and [PATCH /api/sessions/[sessionId]] *)

Module SessionRoute.
Definition GET (db : Db) (sessionId : string)
  : Db * Response ProctorSession.t :=
  match Mongo.findOne sessionId (collection_sessions db) with
  | None => (db, Failure 404 "Session not found")
  | Some session => (db, Success session)
  end.

(** The fields of a session a patch may carry; an absent field is [None].
    (A key that is no field of [ProctorSession] would be written as well;
    the typed document has no place for it.) *)
Record Updates : Type := mkUpdates {
  candidateName : option string;
  endTime : option string;
  duration : option Z;
  totalEvents : option Z;
  lookingAwayCount : option Z;
  noFaceCount : option Z;
  multipleFaceCount : option Z;
  unauthorizedObjectCount : option Z;
  integrityScore : option Z;
  status : option Status;
  sessionId : option string;
  startTime : option string;
  events : option (list DetectionEvent.t)
}.

Definition orElse {A : Type} (o : option A) (d : A) : A :=
  match o with Some a => a | None => d end.

(** [$set: { ...updates, endTime: updates.endTime ? new Date(updates.endTime)
    : undefined }]: every field sent is written, [sessionId] included, and
    [endTime] is always written. *)
Definition applySet (updates : Updates) (doc : ProctorSession.t)
  : ProctorSession.t :=
  {| ProctorSession.sessionId :=
       orElse (sessionId updates) (ProctorSession.sessionId doc);
     ProctorSession.candidateName :=
       orElse (candidateName updates) (ProctorSession.candidateName doc);
     ProctorSession.startTime :=
       match startTime updates with
       | Some text => DateText text
       | None => ProctorSession.startTime doc
       end;
     ProctorSession.endTime :=
       match endTime updates with
       | Some text => if String.eqb text "" then None else Some (DateOf text)
       | None => None
       end;
     ProctorSession.duration :=
       orElse (duration updates) (ProctorSession.duration doc);
     ProctorSession.totalEvents :=
       orElse (totalEvents updates) (ProctorSession.totalEvents doc);
     ProctorSession.lookingAwayCount :=
       orElse (lookingAwayCount updates) (ProctorSession.lookingAwayCount doc);
     ProctorSession.noFaceCount :=
       orElse (noFaceCount updates) (ProctorSession.noFaceCount doc);
     ProctorSession.multipleFaceCount :=
       orElse (multipleFaceCount updates)
              (ProctorSession.multipleFaceCount doc);
     ProctorSession.unauthorizedObjectCount :=
       orElse (unauthorizedObjectCount updates)
              (ProctorSession.unauthorizedObjectCount doc);
     ProctorSession.integrityScore :=
       orElse (integrityScore updates) (ProctorSession.integrityScore doc);
     ProctorSession.status :=
       orElse (status updates) (ProctorSession.status doc);
     ProctorSession.events :=
       orElse (events updates) (ProctorSession.events doc) |}.

Definition PATCH (db : Db) (sessionId : string) (updates : Updates)
  : Db * Response unit :=
  let (sessions', matchedCount) :=
    Mongo.updateOne sessionId (applySet updates) (collection_sessions db) in
  let db' := mkDb sessions' (collection_events db) in
  if matchedCount =? 0 then (db', Failure 404 "Session not found")
  else (db', Success tt).
End SessionRoute.

(** ** The contract of the specification, in its own words *)

Module Spec.
(** Section 4.1: [score = max(0, 100 - (2 lookingAway + 3 noFace
    + 10 multipleFaces + 15 unauthorizedObjects))]. *)
Definition score (lookingAway noFace multipleFaces unauthorizedObjects : Z)
  : Z :=
  Z.max 0 (100 - (2 * lookingAway + 3 * noFace + 10 * multipleFaces
                  + 15 * unauthorizedObjects)).

(** Section 4.2: an event is valid when its type is in the taxonomy and
    its confidence lies in [0, 1]. *)
Definition valid (event : DetectionEvent.json) : bool :=
  inTaxonomy (DetectionEvent.j_eventType event)
  && Qle_bool 0 (DetectionEvent.j_confidence event)
  && Qle_bool (DetectionEvent.j_confidence event) 1.
End Spec.

(** ** Notions used to state the properties *)

Import EventsRoute.
Local Open Scope list_scope.

(** The session record stored under an id, as [findOne] sees it. *)
Definition lookup (db : Db) (sessionId : string) : option ProctorSession.t :=
  Mongo.findOne sessionId (collection_sessions db).

(** The four per-category counters of a session record. *)
Definition counters (s : ProctorSession.t) : EventCounts :=
  mkCounts (ProctorSession.lookingAwayCount s) (ProctorSession.noFaceCount s)
    (ProctorSession.multipleFaceCount s)
    (ProctorSession.unauthorizedObjectCount s).

Definition plus (a b : EventCounts) : EventCounts :=
  mkCounts (lookingAwayCount a + lookingAwayCount b)
    (noFaceCount a + noFaceCount b)
    (multipleFaceCount a + multipleFaceCount b)
    (unauthorizedObjectCount a + unauthorizedObjectCount b).

(** The contract score of a tuple of counters. *)
Definition score (c : EventCounts) : Z :=
  Spec.score (lookingAwayCount c) (noFaceCount c) (multipleFaceCount c)
    (unauthorizedObjectCount c).

(** The database after a batch has been posted for a session. *)
Definition submit (db : Db) (sessionId : string)
    (events : list DetectionEvent.json) (env : nat -> Entropy) : Db :=
  fst (POST db sessionId (Array events) env).

(** The event log of a session: its documents in the events collection. *)
Definition eventLog (db : Db) (sessionId : string) : list DetectionEvent.t :=
  Mongo.find sessionId (collection_events db).

(** [after] is [before] followed by one document for each event of a batch,
    in the order of the batch: the document of the [k]-th event carries the
    session id of the route, the id built from the [k]-th reading, the
    event's type, confidence and details, and the date of its timestamp. *)
Definition appended (before after : list DetectionEvent.t)
    (sessionId : string) (env : nat -> Entropy)
    (events : list DetectionEvent.json) : Prop :=
  exists added,
    after = before ++ added
    /\ List.length added = List.length events
    /\ forall k event,
        nth_error events k = Some event ->
        nth_error added k
        = Some
            {| DetectionEvent.id :=
                 (sessionId ++ "_" ++ decimal (now (env k)) ++ "_"
                  ++ random (env k))%string;
               DetectionEvent.sessionId := sessionId;
               DetectionEvent.eventType := DetectionEvent.j_eventType event;
               DetectionEvent.confidence := DetectionEvent.j_confidence event;
               DetectionEvent.timestamp :=
                 DateOf (DetectionEvent.j_timestamp event);
               DetectionEvent.details := DetectionEvent.j_details event |}.

(** ** Sample requests

    The scenarios of the specification, run through the handlers. *)

Module Sample.
Definition env (i : nat) : Entropy :=
  mkEntropy (1700000000500 + Z.of_nat i) "k3j9x2m1q".

Definition event (eventType : string) (confidence : Q)
  : DetectionEvent.json :=
  DetectionEvent.mkJson eventType confidence "2023-11-14T22:13:25.000Z" "{}".

Definition looking_away := event "looking_away" (9 # 10).
Definition no_face := event "no_face" (8 # 10).
Definition multiple_faces := event "multiple_faces" (7 # 10).
Definition unauthorized_object := event "unauthorized_object" (95 # 100).
(** Outside the taxonomy, and out of the confidence range. *)
Definition talking := event "talking" (2 # 1).

Definition aliceId : string := "session_1700000000000_a1b2c3d4e".

(** Scenario A, first step: start session "Alice" on an empty store. *)
Definition started : Db :=
  fst (SessionsRoute.POST (mkDb [] []) (SessionsRoute.Text "Alice")
         (mkEntropy 1700000000000 "a1b2c3d4e") 1700000000000).

(** Scenario A: one [looking_away] event. *)
Definition afterA : Db := submit started aliceId [looking_away] env.

(** Scenario B: two [no_face] events and one [multiple_faces] event. *)
Definition afterB : Db :=
  submit afterA aliceId [no_face; no_face; multiple_faces] env.

(** The session of scenario A ended through the patch route. *)
Definition ended : Db :=
  fst (SessionRoute.PATCH afterA aliceId
         (SessionRoute.mkUpdates None (Some "2023-11-14T23:00:00.000Z")
            (Some 2800) None None None None None None (Some completed)
            None None None)).
End Sample.

(** ** [POST /api/sessions]: all three branches

    The branch that saves a finished session receives an object with a
    [sessionId].  It is modelled on the request the interview page sends:
    an object holding every field of a [ProctorSession], dates as text. *)

Module SessionsSave.
Record SessionData : Type := mkData {
  sessionId : string;
  candidateName : string;
  startTime : string;
  endTime : string;
  duration : Z;
  totalEvents : Z;
  lookingAwayCount : Z;
  noFaceCount : Z;
  multipleFaceCount : Z;
  unauthorizedObjectCount : Z;
  integrityScore : Z;
  status : Status;
  events : list DetectionEvent.t
}.

Inductive RequestData : Type :=
| Creating (requestData : SessionsRoute.RequestData)
| Saving (requestData : SessionData).

(** The success bodies of the three [return]s. *)
Inductive Body : Type :=
| Started (created : SessionsRoute.Created)
| Saved (message : string) (sessionId : string).

(** [{ ...requestData, startTime: new Date(requestData.startTime),
    endTime: new Date(requestData.endTime) }] *)
Definition sessionData (requestData : SessionData) : ProctorSession.t :=
  {| ProctorSession.sessionId := sessionId requestData;
     ProctorSession.candidateName := candidateName requestData;
     ProctorSession.startTime := DateOf (startTime requestData);
     ProctorSession.endTime := Some (DateOf (endTime requestData));
     ProctorSession.duration := duration requestData;
     ProctorSession.totalEvents := totalEvents requestData;
     ProctorSession.lookingAwayCount := lookingAwayCount requestData;
     ProctorSession.noFaceCount := noFaceCount requestData;
     ProctorSession.multipleFaceCount := multipleFaceCount requestData;
     ProctorSession.unauthorizedObjectCount :=
       unauthorizedObjectCount requestData;
     ProctorSession.integrityScore := integrityScore requestData;
     ProctorSession.status := status requestData;
     ProctorSession.events := events requestData |}.

Definition started (result : Db * Response SessionsRoute.Created)
  : Db * Response Body :=
  match result with
  | (db, Success created) => (db, Success (Started created))
  | (db, Failure code error) => (db, Failure code error)
  end.

(** The second branch: [findOne], then [updateOne] with [$set: sessionData]
    or [insertOne(sessionData)]. *)
Definition save (db : Db) (requestData : SessionData) : Db * Response Body :=
  match Mongo.findOne (sessionId requestData) (collection_sessions db) with
  | Some existingSession =>
      (mkDb (fst (Mongo.updateOne (sessionId requestData)
                    (fun _ => sessionData requestData)
                    (collection_sessions db)))
            (collection_events db),
       Success (Saved "Session updated successfully" (sessionId requestData)))
  | None =>
      (mkDb (Mongo.insertOne (sessionData requestData) (collection_sessions db))
            (collection_events db),
       Success (Saved "Session saved successfully" (sessionId requestData)))
  end.

Definition POST (db : Db) (requestData : RequestData) (r : Entropy)
    (clock : Z) : Db * Response Body :=
  match requestData with
  | Creating requestData' =>
      started (SessionsRoute.POST db requestData' r clock)
  | Saving requestData' =>
      if negb (String.eqb (candidateName requestData') "")
         && String.eqb (sessionId requestData') ""
      then started (SessionsRoute.create db (candidateName requestData') r clock)
      else if negb (String.eqb (sessionId requestData') "")
      then save db requestData'
      else (db, Failure 400 "Invalid request data")
  end.
End SessionsSave.

(** ** The interview page

    Its state is updated through functional updates, so a run of
    [handleNewEvent] calls is a fold. *)

Module InterviewPage.
Record DetectionEventData : Type := mkEvent {
  event_type : string;
  confidence : Q;
  timestamp : string;
  details : string
}.

Record State : Type := mkState {
  events : list DetectionEventData;
  sessionStats : ProctorMonitor.SessionStats
}.

(** The initial values of the two [useState] hooks. *)
Definition initial : State :=
  mkState [] (ProctorMonitor.mkStats 0 0 0 0 0 0).

Definition handleNewEvent (state : State) (event : DetectionEventData)
  : State :=
  let prev := sessionStats state in
  {| events := events state ++ [event];
     sessionStats :=
       {| ProctorMonitor.duration := ProctorMonitor.duration prev;
          ProctorMonitor.totalEvents := ProctorMonitor.totalEvents prev + 1;
          ProctorMonitor.lookingAwayCount :=
            if String.eqb (event_type event) "looking_away"
            then ProctorMonitor.lookingAwayCount prev + 1
            else ProctorMonitor.lookingAwayCount prev;
          ProctorMonitor.noFaceCount :=
            if String.eqb (event_type event) "no_face"
            then ProctorMonitor.noFaceCount prev + 1
            else ProctorMonitor.noFaceCount prev;
          ProctorMonitor.unauthorizedObjectCount :=
            if String.eqb (event_type event) "unauthorized_object"
            then ProctorMonitor.unauthorizedObjectCount prev + 1
            else ProctorMonitor.unauthorizedObjectCount prev;
          ProctorMonitor.multipleFaceCount :=
            if String.eqb (event_type event) "multiple_faces"
            then ProctorMonitor.multipleFaceCount prev + 1
            else ProctorMonitor.multipleFaceCount prev |} |}.

(** The element built by [events.map] in [saveSessionToMongoDB]; no [id]
    is sent, which is kept as the empty text. *)
Definition savedEvent (sessionId : string) (event : DetectionEventData)
  : DetectionEvent.t :=
  {| DetectionEvent.id := "";
     DetectionEvent.sessionId := sessionId;
     DetectionEvent.eventType := event_type event;
     DetectionEvent.confidence := confidence event;
     DetectionEvent.timestamp := DateOf (timestamp event);
     DetectionEvent.details := details event |}.

(** The [sessionData] that [saveSessionToMongoDB] posts; [endTime] is the
    text of [new Date()]. *)
Definition saveSessionToMongoDB (sessionId candidateName : string)
    (sessionStartTime endTime : string) (state : State)
  : SessionsSave.SessionData :=
  let sessionStats := sessionStats state in
  let baseScore := 100 in
  let deductions :=
    (ProctorMonitor.lookingAwayCount sessionStats * 2) +
    (ProctorMonitor.noFaceCount sessionStats * 3) +
    (ProctorMonitor.multipleFaceCount sessionStats * 10) +
    (ProctorMonitor.unauthorizedObjectCount sessionStats * 15) in
  let integrityScore := Z.max 0 (baseScore - deductions) in
  {| SessionsSave.sessionId := sessionId;
     SessionsSave.candidateName := candidateName;
     SessionsSave.startTime := sessionStartTime;
     SessionsSave.endTime := endTime;
     SessionsSave.duration := ProctorMonitor.duration sessionStats;
     SessionsSave.totalEvents := ProctorMonitor.totalEvents sessionStats;
     SessionsSave.lookingAwayCount :=
       ProctorMonitor.lookingAwayCount sessionStats;
     SessionsSave.noFaceCount := ProctorMonitor.noFaceCount sessionStats;
     SessionsSave.multipleFaceCount :=
       ProctorMonitor.multipleFaceCount sessionStats;
     SessionsSave.unauthorizedObjectCount :=
       ProctorMonitor.unauthorizedObjectCount sessionStats;
     SessionsSave.integrityScore := integrityScore;
     SessionsSave.status := completed;
     SessionsSave.events := map (savedEvent sessionId) (events state) |}.
End InterviewPage.

(** ** The video stream: [ws.onmessage] *)

Module VideoStream.
(** What [JSON.parse(event.data)] yields: an object with its [type] and,
    when present, its [events] array; anything else, a parse failure
    included, reaches no [onEvent] call. *)
Inductive Data : Type :=
| Message (type : string) (events : option (list InterviewPage.DetectionEventData))
| Other.

Definition onmessage {S : Type}
    (onEvent : S -> InterviewPage.DetectionEventData -> S)
    (state : S) (data : Data) : S :=
  match data with
  | Message type (Some events) =>
      if String.eqb type "events" then fold_left onEvent events state
      else state
  | Message _ None => state
  | Other => state
  end.
End VideoStream.

(** ** The monitor's list of recent events *)

Module Monitor.
(** [events.slice(-10).reverse()] *)
Definition recentEvents {A : Type} (events : list A) : list A :=
  rev (skipn (List.length events - 10) events).
End Monitor.

(** ** The dashboard page *)

Module Dashboard.
Inductive Source : Type := backend | mongodb.

Record Session : Type := mkSession {
  session_id : string;
  candidate_name : string;
  start_time : string;
  status : string;
  duration : Z;
  event_count : Z;
  source : option Source
}.

(** A session as the list route returns it, read by the page. *)
Record MongoSession : Type := mkMongo {
  sessionId : string;
  candidateName : string;
  startTime : string;
  m_status : string;
  m_duration : Z;
  totalEvents : Z
}.

Definition converted (session : MongoSession) : Session :=
  {| session_id := sessionId session;
     candidate_name := candidateName session;
     start_time := startTime session;
     status := m_status session;
     duration := m_duration session;
     event_count := totalEvents session;
     source := Some mongodb |}.

(** The callback of [allSessions.reduce]. *)
Definition keepFirst (acc : list Session) (current : Session) : list Session :=
  match find (fun session => String.eqb (session_id session)
                               (session_id current)) acc with
  | Some existing => acc
  | None => acc ++ [current]
  end.

Definition uniqueSessions (allSessions : list Session) : list Session :=
  fold_left keepFirst allSessions [].

(** What one of the two sources gave [fetchSessions]. *)
Inductive Fetched (A : Type) : Type :=
| Skipped      (* request rejected, response not ok, or no sessions in the body *)
| Sessions (sessions : list A)           (* ok, with an array of sessions *)
| Unreadable.  (* ok, but json() rejects or sessions is no array: it throws *)
Arguments Skipped {A}.
Arguments Sessions {A} sessions.
Arguments Unreadable {A}.

Definition noSessionsFound : string :=
  "No sessions found. Start a new session or check if services are running.".

Definition failedToFetch : string :=
  "Failed to fetch sessions. Please ensure the backend is running and MongoDB is connected.".

(** The [sessions] and the [error] of the page after [fetchSessions], which
    runs once, on the initial state (no session, no error).  An exception
    reaches the [catch] before [setSessions] is called. *)
Definition fetchSessions (backendData : Fetched Session)
    (mongoData : Fetched MongoSession) : list Session * option string :=
  match backendData, mongoData with
  | Unreadable, _ => ([], Some failedToFetch)
  | _, Unreadable => ([], Some failedToFetch)
  | _, _ =>
      let allSessions :=
        match backendData with Sessions sessions => sessions | _ => [] end in
      let allSessions :=
        match mongoData with
        | Sessions sessions => allSessions ++ map converted sessions
        | _ => allSessions
        end in
      (uniqueSessions allSessions,
       if (List.length allSessions =? 0)%nat then Some noSessionsFound
       else None)
  end.

(** [String.prototype.padStart] *)
Fixpoint filler (n : nat) (padString rest : string) : string :=
  match n with
  | O => EmptyString
  | S n' =>
      match rest with
      | String c rest' => String c (filler n' padString rest')
      | EmptyString =>
          match padString with
          | String c rest' => String c (filler n' padString rest')
          | EmptyString => EmptyString
          end
      end
  end.

Definition padStart (targetLength : nat) (padString s : string) : string :=
  (filler (targetLength - String.length s) padString padString ++ s)%string.

Definition MAX_SAFE_INTEGER : Z := 9007199254740991.

(** On a whole number of seconds that a JavaScript number holds exactly:
    [Math.floor] of the quotient, and the remainder of [%], which takes the
    sign of [seconds]; both are then printed with all their digits.  Beyond
    that range the embedding describes nothing and gives [None]. *)
Definition formatDuration (seconds : Z) : option string :=
  if Z.abs seconds <=? MAX_SAFE_INTEGER then
    let minutes := seconds / 60 in
    let remainingSeconds := Z.rem seconds 60 in
    Some (decimal minutes ++ ":"
          ++ padStart 2 "0" (decimal remainingSeconds))%string
  else None.
End Dashboard.

(** ** Further notions *)

(** A run of batches posted for one session, each with its readings. *)
Definition submitAll (db : Db) (sessionId : string)
    (batches : list (list DetectionEvent.json * (nat -> Entropy))) : Db :=
  fold_left (fun db' batch => submit db' sessionId (fst batch) (snd batch))
    batches db.

(** The session records stored under an id. *)
Definition recordsOf (db : Db) (sessionId : string) : list ProctorSession.t :=
  filter (fun s => String.eqb (ProctorSession.sessionId s) sessionId)
    (collection_sessions db).

(** The request element the interview page's event stands for. *)
Definition asJson (event : InterviewPage.DetectionEventData)
  : DetectionEvent.json :=
  DetectionEvent.mkJson (InterviewPage.event_type event)
    (InterviewPage.confidence event) (InterviewPage.timestamp event)
    (InterviewPage.details event).

(** The dashboard's test for a session id, and the ids of a list. *)
Definition byId (id : string) (session : Dashboard.Session) : bool :=
  String.eqb (Dashboard.session_id session) id.

Definition ids (sessions : list Dashboard.Session) : list string :=
  map Dashboard.session_id sessions.

(** The four counts of the page's statistics, as the route's counts. *)
Definition statsCounts (stats : ProctorMonitor.SessionStats) : EventCounts :=
  mkCounts (ProctorMonitor.lookingAwayCount stats)
    (ProctorMonitor.noFaceCount stats)
    (ProctorMonitor.multipleFaceCount stats)
    (ProctorMonitor.unauthorizedObjectCount stats).

(** The statistics of the page agree with its list of events. *)
Definition consistent (state : InterviewPage.State) : Prop :=
  let stats := InterviewPage.sessionStats state in
  ProctorMonitor.totalEvents stats
  = Z.of_nat (List.length (InterviewPage.events state))
  /\ statsCounts stats
     = countEvents (map asJson (InterviewPage.events state)).

(** A sample run of the interview page: three events, then the save. *)
Module SamplePage.
Definition event (event_type : string) : InterviewPage.DetectionEventData :=
  InterviewPage.mkEvent event_type (9 # 10) "2023-11-14T22:13:25.000Z" "{}".

Definition state : InterviewPage.State :=
  fold_left InterviewPage.handleNewEvent
    [event "looking_away"; event "no_face"; event "talking"]
    InterviewPage.initial.

Definition data : SessionsSave.SessionData :=
  InterviewPage.saveSessionToMongoDB Sample.aliceId "Alice"
    "2023-11-14T22:13:20.000Z" "2023-11-14T23:00:00.000Z" state.
End SamplePage.

(** The id the creation branch builds from its reading. *)
Definition sessionIdOf (r : Entropy) : string :=
  ("session_" ++ decimal (now r) ++ "_" ++ random r)%string.

(** A text all of whose code points are white space (the empty text
    included). *)
Definition blank (s : string) : bool :=
  forallb SessionsRoute.isWhiteSpace (SessionsRoute.codePoints s).

(** ** The store operations *)

Section MongoFacts.
Variable sessionId : string.
Variable update : ProctorSession.t -> ProctorSession.t.
Hypothesis update_keeps_id :
  forall doc, ProctorSession.sessionId (update doc) = ProctorSession.sessionId doc.

Lemma updateOne_miss (c : list ProctorSession.t) :
  Mongo.findOne sessionId c = None ->
  Mongo.updateOne sessionId update c = (c, 0).
Proof.
  induction c as [|doc rest IH]; simpl; [reflexivity|].
  destruct (String.eqb (ProctorSession.sessionId doc) sessionId);
    [discriminate|].
  intros Hnone. rewrite (IH Hnone). reflexivity.
Qed.

Lemma updateOne_hit (c : list ProctorSession.t) (s : ProctorSession.t) :
  Mongo.findOne sessionId c = Some s ->
  Mongo.findOne sessionId (fst (Mongo.updateOne sessionId update c))
  = Some (update s)
  /\ snd (Mongo.updateOne sessionId update c) = 1.
Proof.
  induction c as [|doc rest IH]; simpl; [discriminate|].
  destruct (String.eqb (ProctorSession.sessionId doc) sessionId) eqn:Hid.
  - intros [= <-]. simpl. rewrite update_keeps_id, Hid. auto.
  - intros Hfound. destruct (IH Hfound) as [Hfst Hsnd].
    destruct (Mongo.updateOne sessionId update rest) as [rest' m].
    simpl in *. rewrite Hid. auto.
Qed.

Lemma updateOne_other (other : string) (c : list ProctorSession.t) :
  other <> sessionId ->
  Mongo.findOne other (fst (Mongo.updateOne sessionId update c))
  = Mongo.findOne other c.
Proof.
  intros Hneq. induction c as [|doc rest IH]; simpl; [reflexivity|].
  destruct (String.eqb (ProctorSession.sessionId doc) sessionId) eqn:Hid.
  - simpl. rewrite update_keeps_id.
    apply String.eqb_eq in Hid. rewrite Hid.
    apply not_eq_sym, String.eqb_neq in Hneq. rewrite Hneq. reflexivity.
  - destruct (Mongo.updateOne sessionId update rest) as [rest' m].
    simpl in *. rewrite IH. reflexivity.
Qed.

End MongoFacts.

(** ** Counting a batch *)

Lemma plus_noCounts_r (c : EventCounts) : plus c noCounts = c.
Proof. destruct c; unfold plus; simpl; f_equal; lia. Qed.

Lemma plus_noCounts_l (c : EventCounts) : plus noCounts c = c.
Proof. destruct c; unfold plus; simpl; f_equal; lia. Qed.

Lemma plus_comm (a b : EventCounts) : plus a b = plus b a.
Proof. unfold plus; f_equal; lia. Qed.

Lemma plus_assoc (a b c : EventCounts) : plus a (plus b c) = plus (plus a b) c.
Proof. unfold plus; simpl; f_equal; lia. Qed.

Lemma countEvent_plus (c : EventCounts) (event : DetectionEvent.json) :
  countEvent c event = plus c (countEvent noCounts event).
Proof.
  unfold countEvent.
  repeat match goal with
         | |- context [String.eqb ?a ?b] => destruct (String.eqb a b)
         end;
    destruct c; unfold plus; simpl; f_equal; lia.
Qed.

Lemma fold_countEvent_plus (events : list DetectionEvent.json) :
  forall c, fold_left countEvent events c = plus c (countEvents events).
Proof.
  unfold countEvents.
  induction events as [|event rest IH]; intros c; simpl.
  - now rewrite plus_noCounts_r.
  - rewrite (IH (countEvent c event)), (IH (countEvent noCounts event)).
    rewrite (countEvent_plus c event). now rewrite plus_assoc.
Qed.

Lemma countEvents_app (b1 b2 : list DetectionEvent.json) :
  countEvents (b1 ++ b2) = plus (countEvents b1) (countEvents b2).
Proof.
  unfold countEvents at 1. rewrite fold_left_app.
  fold (countEvents b1). apply fold_countEvent_plus.
Qed.

Lemma countEvents_cons (event : DetectionEvent.json)
    (rest : list DetectionEvent.json) :
  countEvents (event :: rest) = plus (countEvent noCounts event) (countEvents rest).
Proof. unfold countEvents at 1. simpl. apply fold_countEvent_plus. Qed.

(** An event outside the taxonomy matches no [case]. *)
Lemma countEvent_unknown (c : EventCounts) (event : DetectionEvent.json) :
  inTaxonomy (DetectionEvent.j_eventType event) = false ->
  countEvent c event = c.
Proof.
  unfold inTaxonomy, taxonomy, countEvent. simpl.
  intros H. repeat (apply orb_false_elim in H; destruct H as [? H]).
  repeat match goal with
         | E : String.eqb _ _ = false |- _ => rewrite E; clear E
         end.
  reflexivity.
Qed.

Lemma countEvents_unknown (events : list DetectionEvent.json) :
  Forall (fun e => inTaxonomy (DetectionEvent.j_eventType e) = false) events ->
  countEvents events = noCounts.
Proof.
  induction 1 as [|event rest Hev _ IH]; [reflexivity|].
  rewrite countEvents_cons, IH, (countEvent_unknown _ _ Hev).
  reflexivity.
Qed.

Lemma eventsWithTimestamp_length sessionId env (events : list DetectionEvent.json) :
  forall i, List.length (eventsWithTimestamp sessionId env i events)
            = List.length events.
Proof. induction events; intros i; simpl; auto. Qed.

Example decimal_sample : decimal 1700000000000 = "1700000000000".
Proof. reflexivity. Qed.

Example started_sample :
  lookup Sample.started Sample.aliceId
  = Some (SessionsRoute.newSession Sample.aliceId "Alice" (DateAt 1700000000000)).
Proof. reflexivity. Qed.

Example afterB_sample :
  option_map ProctorSession.integrityScore (lookup Sample.afterB Sample.aliceId) = Some 84.
Proof. vm_compute. reflexivity. Qed.

Example ended_sample :
  option_map ProctorSession.status (lookup Sample.ended Sample.aliceId) = Some completed.
Proof. vm_compute. reflexivity. Qed.

(** ** The events handler on a non-empty array *)

Lemma applyUpdate_keeps_id n c sc doc :
  ProctorSession.sessionId (applyUpdate n c sc doc) = ProctorSession.sessionId doc.
Proof. reflexivity. Qed.

Lemma nonempty_length {A : Type} (l : list A) :
  l <> [] -> (List.length l =? 0)%nat = false.
Proof. destruct l; [congruence | reflexivity]. Qed.

Lemma POST_accepted db sessionId events env :
  events <> [] ->
  POST db sessionId (Array events) env
  = (mkDb (fst (Mongo.updateOne sessionId
                  (applyUpdate (Z.of_nat (List.length events))
                     (countEvents events) (scoreOf (countEvents events)))
                  (collection_sessions db)))
          (collection_events db ++ eventsWithTimestamp sessionId env 0 events),
     Success (mkAdded (Z.of_nat (List.length events))
                (scoreOf (countEvents events)))).
Proof.
  intros Hne. unfold POST. rewrite (nonempty_length _ Hne). reflexivity.
Qed.

Lemma submit_lookup db sessionId events env s :
  events <> [] ->
  lookup db sessionId = Some s ->
  lookup (submit db sessionId events env) sessionId
  = Some (applyUpdate (Z.of_nat (List.length events)) (countEvents events)
            (scoreOf (countEvents events)) s).
Proof.
  intros Hne Hs. unfold submit, lookup. rewrite (POST_accepted _ _ _ _ Hne).
  simpl. apply updateOne_hit; [intro; apply applyUpdate_keeps_id | exact Hs].
Qed.

Lemma submit_lookup_other db sessionId events env other :
  other <> sessionId ->
  lookup (submit db sessionId events env) other = lookup db other.
Proof.
  intros Hneq. unfold submit, lookup, POST.
  destruct (List.length events =? 0)%nat; [reflexivity|].
  simpl. apply updateOne_other;
    [intro; apply applyUpdate_keeps_id | exact Hneq].
Qed.

Lemma find_eventsWithTimestamp sessionId env events :
  forall i, Mongo.find sessionId (eventsWithTimestamp sessionId env i events)
            = eventsWithTimestamp sessionId env i events.
Proof.
  unfold Mongo.find.
  induction events as [|event rest IH]; intros i; simpl; [reflexivity|].
  rewrite String.eqb_refl, IH. reflexivity.
Qed.

Lemma submit_eventLog db sessionId events env :
  events <> [] ->
  eventLog (submit db sessionId events env) sessionId
  = eventLog db sessionId ++ eventsWithTimestamp sessionId env 0 events.
Proof.
  intros Hne. unfold submit, eventLog. rewrite (POST_accepted _ _ _ _ Hne).
  simpl. unfold Mongo.find at 1. rewrite filter_app.
  fold (Mongo.find sessionId (collection_events db)).
  fold (Mongo.find sessionId (eventsWithTimestamp sessionId env 0 events)).
  now rewrite find_eventsWithTimestamp.
Qed.

Lemma eventsWithTimestamp_app sessionId env (a b : list DetectionEvent.json) :
  forall i, eventsWithTimestamp sessionId env i (a ++ b)
            = eventsWithTimestamp sessionId env i a
              ++ eventsWithTimestamp sessionId env (i + List.length a) b.
Proof.
  induction a as [|x a IH]; intros i; simpl.
  - now rewrite Nat.add_0_r.
  - rewrite IH. now rewrite Nat.add_succ_r.
Qed.

(** The documents a batch adds, spelled out. *)
Lemma eventsWithTimestamp_nth sessionId env (events : list DetectionEvent.json) :
  forall i k event,
    nth_error events k = Some event ->
    nth_error (eventsWithTimestamp sessionId env i events) k
    = Some (withTimestamp sessionId (env (i + k)%nat) event).
Proof.
  induction events as [|e rest IH]; intros i k event Hk.
  - destruct k; discriminate.
  - destruct k as [|k]; simpl in *.
    + injection Hk as ->. now rewrite Nat.add_0_r.
    + rewrite (IH (S i) k event Hk). now rewrite Nat.add_succ_r.
Qed.

Lemma submit_appended db sessionId events env :
  events <> [] ->
  appended (collection_events db)
    (collection_events (submit db sessionId events env)) sessionId env events
  /\ appended (eventLog db sessionId)
       (eventLog (submit db sessionId events env) sessionId)
       sessionId env events.
Proof.
  intros Hne.
  assert (Hdocs : forall k event,
             nth_error events k = Some event ->
             nth_error (eventsWithTimestamp sessionId env 0 events) k
             = Some (withTimestamp sessionId (env k) event)).
  { intros k event Hk.
    exact (eventsWithTimestamp_nth sessionId env events 0 k event Hk). }
  split; exists (eventsWithTimestamp sessionId env 0 events).
  - split; [|split; [apply eventsWithTimestamp_length | exact Hdocs]].
    unfold submit. rewrite POST_accepted by exact Hne. reflexivity.
  - split; [|split; [apply eventsWithTimestamp_length | exact Hdocs]].
    apply submit_eventLog, Hne.
Qed.

(** The handler's score is the contract score of the same counts. *)
Lemma scoreOf_score (c : EventCounts) : scoreOf c = score c.
Proof. unfold scoreOf, score, Spec.score. f_equal. lia. Qed.

Lemma counters_applyUpdate n c sc s :
  counters (applyUpdate n c sc s) = plus (counters s) c.
Proof. reflexivity. Qed.

(** An event of the taxonomy raises one counter by one. *)
Lemma countEvent_known (event : DetectionEvent.json) :
  inTaxonomy (DetectionEvent.j_eventType event) = true ->
  lookingAwayCount (countEvents [event]) + noFaceCount (countEvents [event])
  + multipleFaceCount (countEvents [event])
  + unauthorizedObjectCount (countEvents [event]) = 1.
Proof.
  unfold inTaxonomy, taxonomy, countEvents, countEvent. simpl.
  destruct (String.eqb _ "looking_away"); [reflexivity|].
  destruct (String.eqb _ "no_face"); [reflexivity|].
  destruct (String.eqb _ "multiple_faces"); [reflexivity|].
  destruct (String.eqb _ "unauthorized_object"); [reflexivity|].
  discriminate.
Qed.

(** Each count of a batch is the number of its events of that type. *)
Lemma countEvents_occurrences (events : list DetectionEvent.json) :
  let occurrences eventType :=
    Z.of_nat
      (List.length
         (filter (fun e => String.eqb (DetectionEvent.j_eventType e) eventType)
            events)) in
  countEvents events
  = mkCounts (occurrences "looking_away") (occurrences "no_face")
      (occurrences "multiple_faces") (occurrences "unauthorized_object").
Proof.
  cbv zeta. induction events as [|event rest IH]; [reflexivity|].
  rewrite countEvents_cons, IH. unfold countEvent, plus, noCounts.
  cbn [filter lookingAwayCount noFaceCount multipleFaceCount
         unauthorizedObjectCount].
  destruct (String.eqb (DetectionEvent.j_eventType event) "looking_away") eqn:E1;
    [apply String.eqb_eq in E1; rewrite E1; cbn [String.eqb Ascii.eqb Bool.eqb];
     cbn [List.length lookingAwayCount noFaceCount multipleFaceCount
            unauthorizedObjectCount]; f_equal; lia|].
  destruct (String.eqb (DetectionEvent.j_eventType event) "no_face") eqn:E2;
    [apply String.eqb_eq in E2; rewrite E2; cbn [String.eqb Ascii.eqb Bool.eqb];
     cbn [List.length lookingAwayCount noFaceCount multipleFaceCount
            unauthorizedObjectCount]; f_equal; lia|].
  destruct (String.eqb (DetectionEvent.j_eventType event) "multiple_faces") eqn:E3;
    [apply String.eqb_eq in E3; rewrite E3; cbn [String.eqb Ascii.eqb Bool.eqb];
     cbn [List.length lookingAwayCount noFaceCount multipleFaceCount
            unauthorizedObjectCount]; f_equal; lia|].
  destruct (String.eqb (DetectionEvent.j_eventType event) "unauthorized_object");
    cbn [List.length lookingAwayCount noFaceCount multipleFaceCount
           unauthorizedObjectCount]; f_equal; lia.
Qed.

(** ** The scoring function *)

(** C6: the integrity score is max(0, 100 - (2 lookingAway + 3 noFace
    + 10 multipleFaces + 15 unauthorizedObjects)), both in the monitor's
    [calculateIntegrityScore] and in the events handler; and a session whose
    counters are all zero has, after one accepted [looking_away] event, the
    score 98, in the response and in the stored record. *)
Theorem C6_score_formula_and_first_event :
  (forall stats,
      ProctorMonitor.calculateIntegrityScore stats
      = Spec.score (ProctorMonitor.lookingAwayCount stats)
          (ProctorMonitor.noFaceCount stats)
          (ProctorMonitor.multipleFaceCount stats)
          (ProctorMonitor.unauthorizedObjectCount stats))
  /\ (forall c,
         scoreOf c
         = Spec.score (lookingAwayCount c) (noFaceCount c)
             (multipleFaceCount c) (unauthorizedObjectCount c))
  /\ (forall db sessionId s event env,
         lookup db sessionId = Some s ->
         counters s = noCounts ->
         DetectionEvent.j_eventType event = "looking_away" ->
         snd (POST db sessionId (Array [event]) env) = Success (mkAdded 1 98)
         /\ exists s',
             lookup (submit db sessionId [event] env) sessionId = Some s'
             /\ ProctorSession.integrityScore s' = 98
             /\ score (counters s') = 98).
Proof.
  split; [|split].
  - intros stats. unfold ProctorMonitor.calculateIntegrityScore, Spec.score.
    f_equal. lia.
  - intros c. apply scoreOf_score.
  - intros db sessionId s event env Hs Hzero Htype.
    assert (Hcount : countEvents [event] = mkCounts 1 0 0 0).
    { unfold countEvents, countEvent. simpl. rewrite Htype. reflexivity. }
    split.
    + rewrite POST_accepted by discriminate. simpl. rewrite Hcount. reflexivity.
    + eexists. split; [apply submit_lookup; [discriminate | exact Hs]|].
      rewrite counters_applyUpdate, Hzero, Hcount. split; reflexivity.
Qed.

Lemma C6_witness :
  snd (POST Sample.started Sample.aliceId (Array [Sample.looking_away]) Sample.env)
  = Success (mkAdded 1 98)
  /\ exists s',
      lookup Sample.afterA Sample.aliceId = Some s'
      /\ ProctorSession.integrityScore s' = 98
      /\ score (counters s') = 98.
Proof.
  apply (proj2 (proj2 C6_score_formula_and_first_event) Sample.started
           Sample.aliceId
           (SessionsRoute.newSession Sample.aliceId "Alice" (DateAt 1700000000000))
           Sample.looking_away Sample.env);
    reflexivity.
Defined.

(** C8: on counters that are not negative the score is a function of the
    four counts alone, lies between 0 and 100, and does not rise when any
    single count is raised while the other three are kept. *)
Theorem C8_score_range_and_monotone (c : EventCounts) (d : Z) :
  0 <= lookingAwayCount c -> 0 <= noFaceCount c ->
  0 <= multipleFaceCount c -> 0 <= unauthorizedObjectCount c ->
  0 <= d ->
  (forall c',
      lookingAwayCount c' = lookingAwayCount c ->
      noFaceCount c' = noFaceCount c ->
      multipleFaceCount c' = multipleFaceCount c ->
      unauthorizedObjectCount c' = unauthorizedObjectCount c ->
      scoreOf c' = scoreOf c)
  /\ 0 <= scoreOf c <= 100
  /\ scoreOf (mkCounts (lookingAwayCount c + d) (noFaceCount c)
                (multipleFaceCount c) (unauthorizedObjectCount c)) <= scoreOf c
  /\ scoreOf (mkCounts (lookingAwayCount c) (noFaceCount c + d)
                (multipleFaceCount c) (unauthorizedObjectCount c)) <= scoreOf c
  /\ scoreOf (mkCounts (lookingAwayCount c) (noFaceCount c)
                (multipleFaceCount c + d) (unauthorizedObjectCount c)) <= scoreOf c
  /\ scoreOf (mkCounts (lookingAwayCount c) (noFaceCount c)
                (multipleFaceCount c) (unauthorizedObjectCount c + d)) <= scoreOf c.
Proof.
  intros Hla Hnf Hmf Huo Hd. split.
  - intros c' E1 E2 E3 E4. unfold scoreOf. rewrite E1, E2, E3, E4. reflexivity.
  - unfold scoreOf;
      cbn [lookingAwayCount noFaceCount multipleFaceCount
             unauthorizedObjectCount].
    repeat split; lia.
Qed.

Lemma C8_witness :
  0 <= scoreOf (mkCounts 1 2 1 0) <= 100
  /\ scoreOf (mkCounts (1 + 3) 2 1 0) <= scoreOf (mkCounts 1 2 1 0).
Proof.
  destruct (C8_score_range_and_monotone (mkCounts 1 2 1 0) 3)
    as (_ & Hrange & Hla & _); simpl; try lia.
  split; [exact Hrange | exact Hla].
Defined.

(** ** Lookup misses *)

(** C9: when no session record is stored under an id, the get route and the
    patch route both answer 404 "Session not found" and leave the store as
    it was: no record is created by the miss. *)
Theorem C9_missing_session_not_found_not_created
    (db : Db) (sessionId : string) (updates : SessionRoute.Updates) :
  lookup db sessionId = None ->
  SessionRoute.GET db sessionId = (db, Failure 404 "Session not found")
  /\ SessionRoute.PATCH db sessionId updates
     = (db, Failure 404 "Session not found").
Proof.
  unfold lookup. intros Hmiss. split.
  - unfold SessionRoute.GET. rewrite Hmiss. reflexivity.
  - unfold SessionRoute.PATCH.
    rewrite updateOne_miss by exact Hmiss.
    simpl. destruct db; reflexivity.
Qed.

Lemma C9_witness :
  lookup Sample.started "session_1700000000000_typo" = None
  /\ SessionRoute.GET Sample.started "session_1700000000000_typo"
     = (Sample.started, Failure 404 "Session not found")
  /\ SessionRoute.PATCH Sample.started "session_1700000000000_typo"
       (SessionRoute.mkUpdates None None None None None None None None None
          (Some completed) None None None)
     = (Sample.started, Failure 404 "Session not found").
Proof.
  split; [reflexivity|].
  apply (C9_missing_session_not_found_not_created Sample.started
           "session_1700000000000_typo"). reflexivity.
Defined.

(** ** Batches *)

(** C7: two batches posted for the same session leave, in either order, the
    same counters and the same [totalEvents]: the counters before plus the
    counts of both batches.  The update adds to the stored counters, it does
    not replace them. *)
Theorem C7_batches_add_in_either_order
    (db : Db) (sessionId : string) (s : ProctorSession.t)
    (b1 b2 : list DetectionEvent.json) (env1 env2 env1' env2' : nat -> Entropy) :
  lookup db sessionId = Some s ->
  b1 <> [] -> b2 <> [] ->
  exists s12 s21,
    lookup (submit (submit db sessionId b1 env1) sessionId b2 env2) sessionId
    = Some s12
    /\ lookup (submit (submit db sessionId b2 env2') sessionId b1 env1') sessionId
       = Some s21
    /\ counters s12 = counters s21
    /\ counters s12 = plus (counters s) (plus (countEvents b1) (countEvents b2))
    /\ ProctorSession.totalEvents s12 = ProctorSession.totalEvents s21
    /\ ProctorSession.totalEvents s12
       = ProctorSession.totalEvents s
         + Z.of_nat (List.length b1) + Z.of_nat (List.length b2).
Proof.
  intros Hs H1 H2.
  pose proof (submit_lookup db sessionId b1 env1 s H1 Hs) as Ha.
  pose proof (submit_lookup _ sessionId b2 env2 _ H2 Ha) as Hab.
  pose proof (submit_lookup db sessionId b2 env2' s H2 Hs) as Hb.
  pose proof (submit_lookup _ sessionId b1 env1' _ H1 Hb) as Hba.
  do 2 eexists. split; [exact Hab|]. split; [exact Hba|].
  rewrite !counters_applyUpdate. repeat split.
  - rewrite <- !plus_assoc. f_equal. apply plus_comm.
  - now rewrite plus_assoc.
  - simpl. lia.
Qed.

Lemma C7_witness :
  exists s12 s21,
    lookup (submit (submit Sample.started Sample.aliceId
                      [Sample.looking_away] Sample.env)
              Sample.aliceId [Sample.no_face; Sample.multiple_faces] Sample.env)
      Sample.aliceId = Some s12
    /\ lookup (submit (submit Sample.started Sample.aliceId
                         [Sample.no_face; Sample.multiple_faces] Sample.env)
                 Sample.aliceId [Sample.looking_away] Sample.env)
         Sample.aliceId = Some s21
    /\ counters s12 = counters s21
    /\ counters s12 = mkCounts 1 1 1 0.
Proof.
  destruct (C7_batches_add_in_either_order Sample.started Sample.aliceId
              (SessionsRoute.newSession Sample.aliceId "Alice"
                 (DateAt 1700000000000))
              [Sample.looking_away] [Sample.no_face; Sample.multiple_faces]
              Sample.env Sample.env Sample.env Sample.env)
    as (s12 & s21 & H12 & H21 & Heq & Hsum & _);
    [reflexivity | discriminate | discriminate |].
  exists s12, s21. repeat split; [exact H12 | exact H21 | exact Heq |].
  rewrite Hsum. reflexivity.
Defined.

(** C10: a non-empty batch all of whose event types lie outside the taxonomy
    is accepted: the response is a success carrying the batch length and the
    score 100; one document for each event of the batch, holding that
    event's type, confidence, details and date under the session id, is
    appended in order to the events collection and so to the session's
    event log; and the stored record has [totalEvents] raised by the batch
    length, its four counters unchanged and its [integrityScore] set to
    100, whatever its counters are. *)
Theorem C10_unknown_only_batch_accepted_score_reset
    (db : Db) (sessionId : string) (s : ProctorSession.t)
    (events : list DetectionEvent.json) (env : nat -> Entropy) :
  events <> [] ->
  Forall (fun e => inTaxonomy (DetectionEvent.j_eventType e) = false) events ->
  lookup db sessionId = Some s ->
  snd (POST db sessionId (Array events) env)
  = Success (mkAdded (Z.of_nat (List.length events)) 100)
  /\ appended (collection_events db)
       (collection_events (submit db sessionId events env))
       sessionId env events
  /\ appended (eventLog db sessionId)
       (eventLog (submit db sessionId events env) sessionId)
       sessionId env events
  /\ exists s',
      lookup (submit db sessionId events env) sessionId = Some s'
      /\ ProctorSession.totalEvents s'
         = ProctorSession.totalEvents s + Z.of_nat (List.length events)
      /\ counters s' = counters s
      /\ ProctorSession.integrityScore s' = 100.
Proof.
  intros Hne Hunknown Hs.
  pose proof (countEvents_unknown events Hunknown) as Hzero.
  destruct (submit_appended db sessionId events env Hne) as [Hall Hlog].
  split; [|split; [exact Hall | split; [exact Hlog|]]].
  - rewrite POST_accepted by exact Hne. simpl. rewrite Hzero. reflexivity.
  - eexists. split; [apply submit_lookup; [exact Hne | exact Hs]|].
    rewrite counters_applyUpdate, Hzero, plus_noCounts_r.
    repeat split.
Qed.

Lemma C10_witness :
  snd (POST Sample.afterB Sample.aliceId
         (Array [Sample.talking; Sample.talking]) Sample.env)
  = Success (mkAdded 2 100)
  /\ appended (eventLog Sample.afterB Sample.aliceId)
       (eventLog (submit Sample.afterB Sample.aliceId
                    [Sample.talking; Sample.talking] Sample.env)
          Sample.aliceId)
       Sample.aliceId Sample.env [Sample.talking; Sample.talking]
  /\ exists s',
      lookup (submit Sample.afterB Sample.aliceId
                [Sample.talking; Sample.talking] Sample.env) Sample.aliceId
      = Some s'
      /\ counters s' = mkCounts 1 2 1 0
      /\ ProctorSession.integrityScore s' = 100.
Proof.
  destruct (C10_unknown_only_batch_accepted_score_reset Sample.afterB
              Sample.aliceId
              (applyUpdate 3 (mkCounts 0 2 1 0) 84
                 (applyUpdate 1 (mkCounts 1 0 0 0) 98
                    (SessionsRoute.newSession Sample.aliceId "Alice"
                       (DateAt 1700000000000))))
              [Sample.talking; Sample.talking] Sample.env)
    as (Hresp & _ & Hlog & s' & Hs' & _ & Hc & Hscore);
    [discriminate | repeat constructor | vm_compute; reflexivity |].
  split; [exact Hresp|]. split; [exact Hlog|].
  exists s'. repeat split; [exact Hs' | | exact Hscore].
  rewrite Hc. reflexivity.
Defined.

Lemma submit_lookup_miss db sessionId events env :
  lookup db sessionId = None ->
  lookup (submit db sessionId events env) sessionId = None.
Proof.
  intros Hmiss. unfold submit, lookup, POST.
  destruct (List.length events =? 0)%nat; [exact Hmiss|].
  simpl. rewrite updateOne_miss by exact Hmiss. exact Hmiss.
Qed.

(** After an accepted batch the stored score is the score of that batch's
    own counts. *)
Lemma submit_stored_score db sessionId events env s :
  events <> [] ->
  lookup db sessionId = Some s ->
  option_map ProctorSession.integrityScore
    (lookup (submit db sessionId events env) sessionId)
  = Some (score (countEvents events)).
Proof.
  intros Hne Hs. rewrite (submit_lookup _ _ _ _ _ Hne Hs). simpl.
  now rewrite scoreOf_score.
Qed.

(** ** The stored score against the cumulative counters *)

(** C1, at scenario A followed by scenario B: the record of the session then
    holds the counters (1, 2, 1, 0), whose score is 82, while the stored
    [integrityScore] is 84, the score of the last batch alone. *)
Theorem C1_stored_score_after_two_batches :
  exists s,
    lookup Sample.afterB Sample.aliceId = Some s
    /\ counters s = mkCounts 1 2 1 0
    /\ score (counters s) = 82
    /\ ProctorSession.integrityScore s = 84
    /\ ProctorSession.integrityScore s
       = score (countEvents [Sample.no_face; Sample.no_face;
                             Sample.multiple_faces]).
Proof. eexists. split; [vm_compute; reflexivity|]. repeat split. Qed.

(** ** Resubmitted events *)

(** C2 fails: the same [looking_away] event posted twice for the session of
    scenario A is counted twice; the second post is not a no-op. *)
Lemma C2_counterexample :
  option_map counters (lookup Sample.afterA Sample.aliceId)
  = Some (mkCounts 1 0 0 0)
  /\ option_map counters
       (lookup (submit Sample.afterA Sample.aliceId [Sample.looking_away]
                  Sample.env) Sample.aliceId)
     = Some (mkCounts 2 0 0 0)
  /\ option_map ProctorSession.totalEvents
       (lookup (submit Sample.afterA Sample.aliceId [Sample.looking_away]
                  Sample.env) Sample.aliceId)
     = Some 2
  /\ lookup (submit Sample.afterA Sample.aliceId [Sample.looking_away]
               Sample.env) Sample.aliceId
     <> lookup Sample.afterA Sample.aliceId.
Proof.
  repeat split; try (vm_compute; reflexivity).
  vm_compute. discriminate.
Qed.

(** C2, amended: the handler keeps no event identity.  An event posted twice
    for a stored session is appended to the event log twice, each copy under
    the id drawn for it, and is counted once per post: the counters rise by
    twice the event's contribution and [totalEvents] by two. *)
Theorem C2_event_counted_once_per_post
    (db : Db) (sessionId : string) (s : ProctorSession.t)
    (event : DetectionEvent.json) (env1 env2 : nat -> Entropy) :
  lookup db sessionId = Some s ->
  let db2 := submit (submit db sessionId [event] env1) sessionId [event] env2 in
  appended (eventLog db sessionId)
    (eventLog (submit db sessionId [event] env1) sessionId)
    sessionId env1 [event]
  /\ appended (eventLog (submit db sessionId [event] env1) sessionId)
       (eventLog db2 sessionId) sessionId env2 [event]
  /\ eventLog db2 sessionId
     = eventLog db sessionId
       ++ [withTimestamp sessionId (env1 0%nat) event;
           withTimestamp sessionId (env2 0%nat) event]
  /\ exists s2,
      lookup db2 sessionId = Some s2
      /\ counters s2
         = plus (counters s) (plus (countEvents [event]) (countEvents [event]))
      /\ ProctorSession.totalEvents s2 = ProctorSession.totalEvents s + 2.
Proof.
  intros Hs db2. subst db2.
  assert (Hne : [event] <> []) by discriminate.
  split; [apply (submit_appended db sessionId [event] env1 Hne)|].
  split; [apply (submit_appended _ sessionId [event] env2 Hne)|].
  split.
  - rewrite !submit_eventLog by discriminate. simpl.
    now rewrite <- app_assoc.
  - pose proof (submit_lookup db sessionId [event] env1 s
                  ltac:(discriminate) Hs) as H1.
    pose proof (submit_lookup _ sessionId [event] env2 _
                  ltac:(discriminate) H1) as H2.
    eexists. split; [exact H2|].
    rewrite !counters_applyUpdate. split.
    + now rewrite plus_assoc.
    + simpl. lia.
Qed.

Lemma C2_witness :
  exists s2,
    lookup (submit (submit Sample.started Sample.aliceId
                      [Sample.looking_away] Sample.env)
              Sample.aliceId [Sample.looking_away] Sample.env) Sample.aliceId
    = Some s2
    /\ counters s2 = mkCounts 2 0 0 0
    /\ ProctorSession.totalEvents s2 = 2.
Proof.
  destruct (C2_event_counted_once_per_post Sample.started Sample.aliceId
              (SessionsRoute.newSession Sample.aliceId "Alice"
                 (DateAt 1700000000000))
              Sample.looking_away Sample.env Sample.env)
    as (_ & _ & _ & s2 & Hs2 & Hc & Ht); [reflexivity|].
  exists s2. repeat split; [exact Hs2 | rewrite Hc; reflexivity | exact Ht].
Defined.

(** ** Events after the end of a session *)

(** C3 fails: the session of scenario A, once marked completed, still has
    its [unauthorizedObjectCount] raised by a valid [unauthorized_object]
    event posted afterwards. *)
Lemma C3_counterexample :
  Spec.valid Sample.unauthorized_object = true
  /\ option_map ProctorSession.status (lookup Sample.ended Sample.aliceId)
     = Some completed
  /\ option_map counters (lookup Sample.ended Sample.aliceId)
     = Some (mkCounts 1 0 0 0)
  /\ option_map counters
       (lookup (submit Sample.ended Sample.aliceId
                  [Sample.unauthorized_object] Sample.env) Sample.aliceId)
     = Some (mkCounts 1 0 0 1)
  /\ option_map counters
       (lookup (submit Sample.ended Sample.aliceId
                  [Sample.unauthorized_object] Sample.env) Sample.aliceId)
     <> option_map counters (lookup Sample.ended Sample.aliceId).
Proof.
  repeat split; try (vm_compute; reflexivity).
  vm_compute. discriminate.
Qed.

(** C3, amended: the handler does not read the status.  A valid event posted
    for a completed session is appended to the session's event log, and it
    is counted as for an active session: the matching counter and
    [totalEvents] rise by one, so the counters differ from their values at
    the end; the status stays completed. *)
Theorem C3_completed_session_still_counted
    (db : Db) (sessionId : string) (s : ProctorSession.t)
    (event : DetectionEvent.json) (env : nat -> Entropy) :
  lookup db sessionId = Some s ->
  ProctorSession.status s = completed ->
  Spec.valid event = true ->
  let db' := submit db sessionId [event] env in
  appended (eventLog db sessionId) (eventLog db' sessionId)
    sessionId env [event]
  /\ eventLog db' sessionId
     = eventLog db sessionId ++ [withTimestamp sessionId (env 0%nat) event]
  /\ exists s',
      lookup db' sessionId = Some s'
      /\ ProctorSession.status s' = completed
      /\ counters s' = plus (counters s) (countEvents [event])
      /\ counters s' <> counters s
      /\ ProctorSession.totalEvents s' = ProctorSession.totalEvents s + 1.
Proof.
  intros Hs Hstatus Hvalid db'. subst db'.
  split; [apply submit_appended; discriminate|]. split.
  - now rewrite submit_eventLog by discriminate.
  - eexists. split; [apply submit_lookup; [discriminate | exact Hs]|].
    rewrite counters_applyUpdate. repeat split; [exact Hstatus|].
    unfold Spec.valid in Hvalid.
    apply andb_prop in Hvalid. destruct Hvalid as [Hvalid _].
    apply andb_prop in Hvalid. destruct Hvalid as [Hknown _].
    apply countEvent_known in Hknown.
    unfold plus, counters. intros Heq. injection Heq as E1 E2 E3 E4. lia.
Qed.

Lemma C3_witness :
  exists s',
    lookup (submit Sample.ended Sample.aliceId [Sample.unauthorized_object]
              Sample.env) Sample.aliceId = Some s'
    /\ ProctorSession.status s' = completed
    /\ counters s' = mkCounts 1 0 0 1.
Proof.
  destruct (C3_completed_session_still_counted Sample.ended Sample.aliceId
              (SessionRoute.applySet
                 (SessionRoute.mkUpdates None (Some "2023-11-14T23:00:00.000Z")
                    (Some 2800) None None None None None None (Some completed)
                    None None None)
                 (applyUpdate 1 (mkCounts 1 0 0 0) 98
                    (SessionsRoute.newSession Sample.aliceId "Alice"
                       (DateAt 1700000000000))))
              Sample.unauthorized_object Sample.env)
    as (_ & _ & s' & Hs' & Hst & Hc & _);
    [vm_compute; reflexivity | reflexivity | reflexivity |].
  exists s'. repeat split; [exact Hs' | exact Hst | rewrite Hc; reflexivity].
Defined.

(** ** Events that would not pass validation *)

(** C4 fails: an event of type "talking" posted for the session of scenario
    A is not rejected; the response is a success and the event is counted in
    [totalEvents]. *)
Lemma C4_counterexample :
  inTaxonomy (DetectionEvent.j_eventType Sample.talking) = false
  /\ snd (POST Sample.afterA Sample.aliceId (Array [Sample.talking]) Sample.env)
     = Success (mkAdded 1 100)
  /\ (forall status error,
         snd (POST Sample.afterA Sample.aliceId (Array [Sample.talking])
                Sample.env) <> Failure status error)
  /\ option_map ProctorSession.totalEvents
       (lookup (submit Sample.afterA Sample.aliceId [Sample.talking] Sample.env)
          Sample.aliceId) = Some 2.
Proof.
  repeat split; try (vm_compute; reflexivity).
  intros status error. vm_compute. discriminate.
Qed.

(** C4, amended: an event whose type lies outside the taxonomy is accepted,
    not rejected: posted alone, the response is a success with
    [eventsAdded = 1], the event is appended to the session's event log, and
    the four counters of every session are left as they were; inside any
    batch it adds nothing to the batch's counts. *)
Theorem C4_unknown_type_accepted_not_counted
    (db : Db) (sessionId : string) (event : DetectionEvent.json)
    (env : nat -> Entropy) :
  inTaxonomy (DetectionEvent.j_eventType event) = false ->
  let db' := submit db sessionId [event] env in
  (exists newScore,
      snd (POST db sessionId (Array [event]) env)
      = Success (mkAdded 1 newScore))
  /\ appended (eventLog db sessionId) (eventLog db' sessionId)
       sessionId env [event]
  /\ eventLog db' sessionId
     = eventLog db sessionId ++ [withTimestamp sessionId (env 0%nat) event]
  /\ (forall other,
         option_map counters (lookup db' other)
         = option_map counters (lookup db other))
  /\ (forall before after,
         countEvents (before ++ event :: after) = countEvents (before ++ after)).
Proof.
  intros Hunknown db'. subst db'.
  assert (Hzero : countEvents [event] = noCounts).
  { apply countEvents_unknown. constructor; [exact Hunknown | constructor]. }
  assert (Hne : [event] <> []) by discriminate.
  split; [|split; [apply submit_appended, Hne | split; [|split]]].
  - eexists. rewrite POST_accepted by discriminate. reflexivity.
  - now rewrite submit_eventLog by discriminate.
  - intros other. destruct (String.string_dec other sessionId) as [->|Hneq].
    + destruct (lookup db sessionId) as [s|] eqn:Hs.
      * rewrite (submit_lookup _ _ _ env _ Hne Hs). simpl.
        f_equal. rewrite counters_applyUpdate, Hzero. apply plus_noCounts_r.
      * now rewrite submit_lookup_miss.
    + now rewrite submit_lookup_other.
  - intros before after. rewrite !countEvents_app, countEvents_cons.
    rewrite (countEvent_unknown _ _ Hunknown), plus_noCounts_l. reflexivity.
Qed.

Lemma C4_witness :
  (exists newScore,
      snd (POST Sample.afterA Sample.aliceId (Array [Sample.talking]) Sample.env)
      = Success (mkAdded 1 newScore))
  /\ option_map counters
       (lookup (submit Sample.afterA Sample.aliceId [Sample.talking] Sample.env)
          Sample.aliceId)
     = Some (mkCounts 1 0 0 0).
Proof.
  destruct (C4_unknown_type_accepted_not_counted Sample.afterA Sample.aliceId
              Sample.talking Sample.env)
    as (Hresp & _ & _ & Hsame & _); [reflexivity|].
  split; [exact Hresp|].
  rewrite (Hsame Sample.aliceId). reflexivity.
Defined.

(** C5 fails: a batch of a valid [looking_away] event and an event that
    fails both checks (type "talking", confidence 2) is accepted whole: the
    response is a success with [eventsAdded = 2], both events are in the
    event log and the counter of the valid one is raised. *)
Lemma C5_counterexample :
  Spec.valid Sample.talking = false
  /\ snd (POST Sample.started Sample.aliceId
            (Array [Sample.looking_away; Sample.talking]) Sample.env)
     = Success (mkAdded 2 98)
  /\ List.length
       (eventLog (submit Sample.started Sample.aliceId
                    [Sample.looking_away; Sample.talking] Sample.env)
          Sample.aliceId) = 2%nat
  /\ option_map counters
       (lookup (submit Sample.started Sample.aliceId
                  [Sample.looking_away; Sample.talking] Sample.env)
          Sample.aliceId)
     = Some (mkCounts 1 0 0 0)
  /\ option_map counters (lookup Sample.started Sample.aliceId)
     = Some (mkCounts 0 0 0 0).
Proof. repeat split; vm_compute; reflexivity. Qed.

(** C5, amended: the events route answers 400 "Invalid events data" when the
    parsed body is not an array or is the empty array, and 500 "Failed to
    add events" when the body cannot be parsed or is an array that holds a
    [null]; in each of these cases it records nothing and changes nothing.
    Event objects are not validated: every non-empty array of event objects
    is accepted whole, whatever their types and confidences; the response
    is a success whose [eventsAdded] is the batch length, and one document
    for each event of the batch, holding that event's type, confidence,
    details and date under the session id, is appended in order to the
    events collection and so to the session's event log. *)
Theorem C5_only_empty_or_non_array_rejected
    (db : Db) (sessionId : string) (env : nat -> Entropy) :
  POST db sessionId NotArray env = (db, Failure 400 "Invalid events data")
  /\ POST db sessionId (Array []) env = (db, Failure 400 "Invalid events data")
  /\ POST db sessionId Unparsable env = (db, Failure 500 "Failed to add events")
  /\ (forall before after,
         POST db sessionId (ArrayWithNull before after) env
         = (db, Failure 500 "Failed to add events"))
  /\ forall events,
      events <> [] ->
      (exists newScore,
          snd (POST db sessionId (Array events) env)
          = Success (mkAdded (Z.of_nat (List.length events)) newScore))
      /\ appended (collection_events db)
           (collection_events (submit db sessionId events env))
           sessionId env events
      /\ appended (eventLog db sessionId)
           (eventLog (submit db sessionId events env) sessionId)
           sessionId env events.
Proof.
  split; [reflexivity|]. split; [reflexivity|]. split; [reflexivity|].
  split; [reflexivity|].
  intros events Hne. split.
  - eexists. rewrite POST_accepted by exact Hne. reflexivity.
  - apply submit_appended, Hne.
Qed.

Lemma C5_witness :
  (exists newScore,
      snd (POST Sample.started Sample.aliceId
             (Array [Sample.looking_away; Sample.talking]) Sample.env)
      = Success (mkAdded 2 newScore))
  /\ appended (collection_events Sample.started)
       (collection_events
          (submit Sample.started Sample.aliceId
             [Sample.looking_away; Sample.talking] Sample.env))
       Sample.aliceId Sample.env [Sample.looking_away; Sample.talking]
  /\ appended (eventLog Sample.started Sample.aliceId)
       (eventLog (submit Sample.started Sample.aliceId
                    [Sample.looking_away; Sample.talking] Sample.env)
          Sample.aliceId)
       Sample.aliceId Sample.env [Sample.looking_away; Sample.talking].
Proof.
  apply (proj2 (proj2 (proj2 (proj2
           (C5_only_empty_or_non_array_rejected Sample.started
              Sample.aliceId Sample.env))))
           [Sample.looking_away; Sample.talking]).
  discriminate.
Defined.

(** * Further properties of the routes and pages *)

(** ** The events route: isolation and orphan events *)

Lemma find_eventsWithTimestamp_other sessionId other env events :
  other <> sessionId ->
  forall i, Mongo.find other (eventsWithTimestamp sessionId env i events) = [].
Proof.
  intros Hneq. unfold Mongo.find.
  induction events as [|event rest IH]; intros i; simpl; [reflexivity|].
  apply not_eq_sym, String.eqb_neq in Hneq. rewrite Hneq. apply IH.
Qed.

Lemma POST_eventLog_other db sessionId body env other :
  other <> sessionId ->
  eventLog (fst (POST db sessionId body env)) other = eventLog db other.
Proof.
  intros Hneq. unfold POST.
  destruct body as [| |events|before after]; try reflexivity.
  destruct (List.length events =? 0)%nat; [reflexivity|].
  unfold eventLog, Mongo.insertMany. cbn [fst collection_events].
  unfold Mongo.find at 1. rewrite filter_app.
  fold (Mongo.find other (eventsWithTimestamp sessionId env 0 events)).
  rewrite (find_eventsWithTimestamp_other _ _ _ _ Hneq). apply app_nil_r.
Qed.

Lemma POST_lookup_other db sessionId body env other :
  other <> sessionId ->
  lookup (fst (POST db sessionId body env)) other = lookup db other.
Proof.
  intros Hneq. destruct body as [| |events|before after]; try reflexivity.
  apply submit_lookup_other, Hneq.
Qed.

(** X1: whatever is posted to the events route of one session, the record
    and the event log of every other session id stay as they were. *)
Theorem X1_events_post_leaves_other_sessions
    (db : Db) (sessionId other : string) (body : Body) (env : nat -> Entropy) :
  other <> sessionId ->
  lookup (fst (POST db sessionId body env)) other = lookup db other
  /\ eventLog (fst (POST db sessionId body env)) other = eventLog db other.
Proof.
  intros Hneq. split.
  - apply POST_lookup_other, Hneq.
  - apply POST_eventLog_other, Hneq.
Qed.

Lemma X1_witness :
  lookup (fst (POST Sample.afterA "session_1700000000000_zzzzzzzzz"
                 (Array [Sample.no_face]) Sample.env)) Sample.aliceId
  = lookup Sample.afterA Sample.aliceId
  /\ eventLog (fst (POST Sample.afterA "session_1700000000000_zzzzzzzzz"
                      (Array [Sample.no_face]) Sample.env)) Sample.aliceId
     = eventLog Sample.afterA Sample.aliceId.
Proof.
  apply (X1_events_post_leaves_other_sessions Sample.afterA
           "session_1700000000000_zzzzzzzzz" Sample.aliceId).
  discriminate.
Defined.

(** X2: a non-empty batch posted for an id under which no session is stored
    is still answered with a success, and one document for each of its
    events, holding that event's type, confidence, details and date under
    the id, is appended in order to the events collection and so to the
    event log of the id, while the sessions collection is left exactly as
    it was: no record is created for the id and none is updated. *)
Theorem X2_events_for_unknown_session_are_logged
    (db : Db) (sessionId : string) (events : list DetectionEvent.json)
    (env : nat -> Entropy) :
  lookup db sessionId = None ->
  events <> [] ->
  snd (POST db sessionId (Array events) env)
  = Success (mkAdded (Z.of_nat (List.length events))
               (score (countEvents events)))
  /\ collection_sessions (submit db sessionId events env)
     = collection_sessions db
  /\ appended (collection_events db)
       (collection_events (submit db sessionId events env))
       sessionId env events
  /\ appended (eventLog db sessionId)
       (eventLog (submit db sessionId events env) sessionId)
       sessionId env events.
Proof.
  intros Hmiss Hne. split; [|split].
  - rewrite POST_accepted by exact Hne. simpl. now rewrite scoreOf_score.
  - unfold submit. rewrite POST_accepted by exact Hne. simpl.
    unfold lookup in Hmiss. now rewrite updateOne_miss.
  - apply submit_appended, Hne.
Qed.

Lemma X2_witness :
  snd (POST Sample.started "session_1700000000000_typo"
         (Array [Sample.looking_away]) Sample.env)
  = Success (mkAdded 1 98)
  /\ collection_sessions (submit Sample.started "session_1700000000000_typo"
                            [Sample.looking_away] Sample.env)
     = collection_sessions Sample.started
  /\ appended (eventLog Sample.started "session_1700000000000_typo")
       (eventLog (submit Sample.started "session_1700000000000_typo"
                    [Sample.looking_away] Sample.env)
          "session_1700000000000_typo")
       "session_1700000000000_typo" Sample.env [Sample.looking_away].
Proof.
  destruct (X2_events_for_unknown_session_are_logged Sample.started
              "session_1700000000000_typo" [Sample.looking_away] Sample.env)
    as (Hresp & Hsame & _ & Hlog); [reflexivity | discriminate |].
  split; [exact Hresp|]. split; [exact Hsame | exact Hlog].
Defined.

(** ** The events route: runs of batches *)

Lemma submitAll_cons db sessionId batch batches :
  submitAll db sessionId (batch :: batches)
  = submitAll (submit db sessionId (fst batch) (snd batch)) sessionId batches.
Proof. reflexivity. Qed.

Lemma submitAll_run sessionId
    (batches : list (list DetectionEvent.json * (nat -> Entropy))) :
  forall db s,
    lookup db sessionId = Some s ->
    Forall (fun batch => fst batch <> []) batches ->
    let all := List.concat (map fst batches) in
    exists s',
      lookup (submitAll db sessionId batches) sessionId = Some s'
      /\ counters s' = plus (counters s) (countEvents all)
      /\ ProctorSession.totalEvents s'
         = ProctorSession.totalEvents s + Z.of_nat (List.length all)
      /\ List.length (eventLog (submitAll db sessionId batches) sessionId)
         = (List.length (eventLog db sessionId) + List.length all)%nat
      /\ (ProctorSession.sessionId s', ProctorSession.candidateName s',
          ProctorSession.startTime s', ProctorSession.endTime s',
          ProctorSession.duration s', ProctorSession.status s',
          ProctorSession.events s')
         = (ProctorSession.sessionId s, ProctorSession.candidateName s,
            ProctorSession.startTime s, ProctorSession.endTime s,
            ProctorSession.duration s, ProctorSession.status s,
            ProctorSession.events s).
Proof.
  induction batches as [|[events env] batches IH]; intros db s Hs Hne; cbv zeta.
  - exists s. simpl. rewrite plus_noCounts_r, Nat.add_0_r.
    repeat split; [exact Hs | lia].
  - inversion Hne as [|? ? Hne1 Hne2]; subst. simpl in Hne1.
    rewrite submitAll_cons. cbn [fst snd map List.concat].
    pose proof (submit_lookup db sessionId events env s Hne1 Hs) as Hstep.
    destruct (IH _ _ Hstep Hne2) as (s' & Hs' & Hc & Ht & Hlog & Hrest).
    exists s'. split; [exact Hs'|].
    rewrite Hc, Ht, Hlog, Hrest, counters_applyUpdate, countEvents_app.
    rewrite (submit_eventLog _ _ _ _ Hne1).
    rewrite !length_app, eventsWithTimestamp_length.
    repeat split.
    + now rewrite plus_assoc.
    + cbn [ProctorSession.totalEvents applyUpdate]. lia.
    + lia.
Qed.

(** X3: over any run of accepted batches for a stored session the counters
    and [totalEvents] are cumulative: they end at their starting values plus
    the counts, and the number, of all the events of the run, however the
    events are cut into batches; the id, the name, the times, the duration,
    the status and the embedded events of the record are never touched. *)
Theorem X3_run_of_batches_is_cumulative
    (db : Db) (sessionId : string) (s : ProctorSession.t)
    (batches : list (list DetectionEvent.json * (nat -> Entropy))) :
  lookup db sessionId = Some s ->
  Forall (fun batch => fst batch <> []) batches ->
  exists s',
    lookup (submitAll db sessionId batches) sessionId = Some s'
    /\ counters s'
       = plus (counters s) (countEvents (List.concat (map fst batches)))
    /\ ProctorSession.totalEvents s'
       = ProctorSession.totalEvents s
         + Z.of_nat (List.length (List.concat (map fst batches)))
    /\ (ProctorSession.sessionId s', ProctorSession.candidateName s',
        ProctorSession.startTime s', ProctorSession.endTime s',
        ProctorSession.duration s', ProctorSession.status s',
        ProctorSession.events s')
       = (ProctorSession.sessionId s, ProctorSession.candidateName s,
          ProctorSession.startTime s, ProctorSession.endTime s,
          ProctorSession.duration s, ProctorSession.status s,
          ProctorSession.events s).
Proof.
  intros Hs Hne.
  destruct (submitAll_run sessionId batches db s Hs Hne)
    as (s' & Hs' & Hc & Ht & _ & Hrest).
  exists s'. repeat split; assumption.
Qed.

Lemma X3_witness :
  exists s',
    lookup (submitAll Sample.started Sample.aliceId
              [([Sample.looking_away], Sample.env);
               ([Sample.no_face; Sample.no_face; Sample.multiple_faces],
                Sample.env)]) Sample.aliceId = Some s'
    /\ counters s' = mkCounts 1 2 1 0
    /\ ProctorSession.totalEvents s' = 4.
Proof.
  destruct (X3_run_of_batches_is_cumulative Sample.started Sample.aliceId
              (SessionsRoute.newSession Sample.aliceId "Alice"
                 (DateAt 1700000000000))
              [([Sample.looking_away], Sample.env);
               ([Sample.no_face; Sample.no_face; Sample.multiple_faces],
                Sample.env)])
    as (s' & Hs' & Hc & Ht & _);
    [reflexivity | repeat constructor; discriminate |].
  exists s'. repeat split; [exact Hs' | rewrite Hc; reflexivity | exact Ht].
Defined.

(** X4: a session whose [totalEvents] equals the length of its event log
    keeps that equality over any run of accepted batches. *)
Theorem X4_total_events_matches_event_log
    (db : Db) (sessionId : string) (s : ProctorSession.t)
    (batches : list (list DetectionEvent.json * (nat -> Entropy))) :
  lookup db sessionId = Some s ->
  Forall (fun batch => fst batch <> []) batches ->
  ProctorSession.totalEvents s = Z.of_nat (List.length (eventLog db sessionId)) ->
  exists s',
    lookup (submitAll db sessionId batches) sessionId = Some s'
    /\ ProctorSession.totalEvents s'
       = Z.of_nat (List.length
                     (eventLog (submitAll db sessionId batches) sessionId)).
Proof.
  intros Hs Hne Hinv.
  destruct (submitAll_run sessionId batches db s Hs Hne)
    as (s' & Hs' & _ & Ht & Hlog & _).
  exists s'. split; [exact Hs'|]. rewrite Ht, Hlog, Hinv. lia.
Qed.

Lemma X4_witness :
  exists s',
    lookup (submitAll Sample.started Sample.aliceId
              [([Sample.looking_away], Sample.env);
               ([Sample.talking; Sample.no_face], Sample.env)])
      Sample.aliceId = Some s'
    /\ ProctorSession.totalEvents s'
       = Z.of_nat
           (List.length
              (eventLog (submitAll Sample.started Sample.aliceId
                           [([Sample.looking_away], Sample.env);
                            ([Sample.talking; Sample.no_face], Sample.env)])
                 Sample.aliceId)).
Proof.
  apply (X4_total_events_matches_event_log Sample.started Sample.aliceId
           (SessionsRoute.newSession Sample.aliceId "Alice"
              (DateAt 1700000000000))).
  - reflexivity.
  - repeat constructor; discriminate.
  - reflexivity.
Defined.

(** ** The events route: bounds on counts and score *)

Lemma countEvent_single (event : DetectionEvent.json) :
  let c := countEvent noCounts event in
  0 <= lookingAwayCount c /\ 0 <= noFaceCount c
  /\ 0 <= multipleFaceCount c /\ 0 <= unauthorizedObjectCount c
  /\ lookingAwayCount c + noFaceCount c + multipleFaceCount c
     + unauthorizedObjectCount c
     = if inTaxonomy (DetectionEvent.j_eventType event) then 1 else 0.
Proof.
  unfold inTaxonomy, taxonomy, countEvent. simpl.
  destruct (String.eqb _ "looking_away"); [simpl; lia|].
  destruct (String.eqb _ "no_face"); [simpl; lia|].
  destruct (String.eqb _ "multiple_faces"); [simpl; lia|].
  destruct (String.eqb _ "unauthorized_object"); simpl; lia.
Qed.

Lemma countEvents_bounds (events : list DetectionEvent.json) :
  let c := countEvents events in
  0 <= lookingAwayCount c /\ 0 <= noFaceCount c
  /\ 0 <= multipleFaceCount c /\ 0 <= unauthorizedObjectCount c
  /\ lookingAwayCount c + noFaceCount c + multipleFaceCount c
     + unauthorizedObjectCount c
     = Z.of_nat (List.length
                   (filter (fun e => inTaxonomy (DetectionEvent.j_eventType e))
                      events)).
Proof.
  induction events as [|event rest IH]; cbv zeta in *.
  - simpl. lia.
  - rewrite countEvents_cons.
    pose proof (countEvent_single event) as H1. cbv zeta in H1.
    cbn [filter]. unfold plus.
    cbn [lookingAwayCount noFaceCount multipleFaceCount
           unauthorizedObjectCount].
    destruct (inTaxonomy (DetectionEvent.j_eventType event));
      cbn [List.length]; lia.
Qed.

Lemma filter_length_le {A : Type} (p : A -> bool) (l : list A) :
  (List.length (filter p l) <= List.length l)%nat.
Proof.
  induction l as [|x l IH]; simpl; [lia|]. destruct (p x); simpl; lia.
Qed.

Lemma filter_none {A : Type} (p : A -> bool) (l : list A) :
  List.length (filter p l) = 0%nat <-> Forall (fun x => p x = false) l.
Proof.
  induction l as [|x l IH]; simpl.
  - split; [constructor | reflexivity].
  - destruct (p x) eqn:Hp; simpl.
    + split; [discriminate|]. intros H. inversion H; congruence.
    + rewrite IH. split; [now constructor | intros H; now inversion H].
Qed.

(** X5: an accepted batch never lowers a counter of the stored session, and
    the four counters rise together by exactly the number of events of the
    batch whose type is in the taxonomy, which is at most [eventsAdded]. *)
Theorem X5_counters_only_grow
    (db : Db) (sessionId : string) (s : ProctorSession.t)
    (events : list DetectionEvent.json) (env : nat -> Entropy) :
  lookup db sessionId = Some s ->
  events <> [] ->
  exists s',
    lookup (submit db sessionId events env) sessionId = Some s'
    /\ ProctorSession.lookingAwayCount s <= ProctorSession.lookingAwayCount s'
    /\ ProctorSession.noFaceCount s <= ProctorSession.noFaceCount s'
    /\ ProctorSession.multipleFaceCount s <= ProctorSession.multipleFaceCount s'
    /\ ProctorSession.unauthorizedObjectCount s
       <= ProctorSession.unauthorizedObjectCount s'
    /\ (ProctorSession.lookingAwayCount s' + ProctorSession.noFaceCount s'
        + ProctorSession.multipleFaceCount s'
        + ProctorSession.unauthorizedObjectCount s')
       - (ProctorSession.lookingAwayCount s + ProctorSession.noFaceCount s
          + ProctorSession.multipleFaceCount s
          + ProctorSession.unauthorizedObjectCount s)
       = Z.of_nat
           (List.length
              (filter (fun e => inTaxonomy (DetectionEvent.j_eventType e))
                 events))
    /\ Z.of_nat
         (List.length
            (filter (fun e => inTaxonomy (DetectionEvent.j_eventType e))
               events))
       <= Z.of_nat (List.length events).
Proof.
  intros Hs Hne. eexists. split; [apply submit_lookup; [exact Hne | exact Hs]|].
  pose proof (countEvents_bounds events) as Hb. cbv zeta in Hb.
  pose proof (filter_length_le
                (fun e => inTaxonomy (DetectionEvent.j_eventType e)) events).
  cbn [applyUpdate ProctorSession.lookingAwayCount ProctorSession.noFaceCount
         ProctorSession.multipleFaceCount
         ProctorSession.unauthorizedObjectCount].
  repeat split; lia.
Qed.

Lemma X5_witness :
  exists s',
    lookup (submit Sample.afterA Sample.aliceId
              [Sample.talking; Sample.no_face] Sample.env) Sample.aliceId
    = Some s'
    /\ ProctorSession.lookingAwayCount s' = 1
    /\ ProctorSession.noFaceCount s' = 1.
Proof.
  destruct (X5_counters_only_grow Sample.afterA Sample.aliceId
              (applyUpdate 1 (mkCounts 1 0 0 0) 98
                 (SessionsRoute.newSession Sample.aliceId "Alice"
                    (DateAt 1700000000000)))
              [Sample.talking; Sample.no_face] Sample.env)
    as (s' & Hs' & _); [vm_compute; reflexivity | discriminate |].
  exists s'. split; [exact Hs'|].
  assert (Hv : lookup (submit Sample.afterA Sample.aliceId
                         [Sample.talking; Sample.no_face] Sample.env)
                 Sample.aliceId
               = Some (applyUpdate 2 (mkCounts 0 1 0 0) 97
                         (applyUpdate 1 (mkCounts 1 0 0 0) 98
                            (SessionsRoute.newSession Sample.aliceId "Alice"
                               (DateAt 1700000000000)))))
    by (vm_compute; reflexivity).
  rewrite Hv in Hs'. injection Hs' as <-. split; reflexivity.
Defined.

(** X6: after an accepted batch for a stored session the stored
    [integrityScore] is the score returned in the response, it lies between
    0 and 100, and it is 100 exactly when no event of the batch has a type
    of the taxonomy. *)
Theorem X6_score_after_batch
    (db : Db) (sessionId : string) (s : ProctorSession.t)
    (events : list DetectionEvent.json) (env : nat -> Entropy) :
  lookup db sessionId = Some s ->
  events <> [] ->
  exists newScore,
    snd (POST db sessionId (Array events) env)
    = Success (mkAdded (Z.of_nat (List.length events)) newScore)
    /\ option_map ProctorSession.integrityScore
         (lookup (submit db sessionId events env) sessionId)
       = Some newScore
    /\ 0 <= newScore <= 100
    /\ (newScore = 100
        <-> Forall (fun e => inTaxonomy (DetectionEvent.j_eventType e) = false)
              events).
Proof.
  intros Hs Hne. exists (scoreOf (countEvents events)).
  split; [rewrite POST_accepted by exact Hne; reflexivity|].
  split; [rewrite (submit_lookup _ _ _ _ _ Hne Hs); reflexivity|].
  pose proof (countEvents_bounds events) as Hb. cbv zeta in Hb.
  rewrite <- filter_none.
  unfold scoreOf. split; [lia|]. split; intros H; lia.
Qed.

Lemma X6_witness :
  exists newScore,
    snd (POST Sample.afterA Sample.aliceId
           (Array [Sample.no_face; Sample.no_face; Sample.multiple_faces])
           Sample.env)
    = Success (mkAdded 3 newScore)
    /\ 0 <= newScore <= 100.
Proof.
  destruct (X6_score_after_batch Sample.afterA Sample.aliceId
              (applyUpdate 1 (mkCounts 1 0 0 0) 98
                 (SessionsRoute.newSession Sample.aliceId "Alice"
                    (DateAt 1700000000000)))
              [Sample.no_face; Sample.no_face; Sample.multiple_faces]
              Sample.env)
    as (newScore & Hresp & _ & Hrange & _);
    [vm_compute; reflexivity | discriminate |].
  exists newScore. split; [exact Hresp | exact Hrange].
Defined.

(** ** Session creation *)

Lemma dropWhile_nil {A : Type} (p : A -> bool) (l : list A) :
  SessionsRoute.dropWhile p l = [] <-> forallb p l = true.
Proof.
  induction l as [|x l IH]; simpl; [tauto|].
  destruct (p x); simpl; [exact IH|]. split; discriminate.
Qed.

Lemma dropWhile_Forall {A : Type} (p : A -> bool) (Q : A -> Prop) (l : list A) :
  Forall Q l -> Forall Q (SessionsRoute.dropWhile p l).
Proof.
  induction 1 as [|x l Hx Hl IH]; simpl; [constructor|].
  destruct (p x); [exact IH | now constructor].
Qed.

Lemma forallb_rev {A : Type} (p : A -> bool) (l : list A) :
  forallb p (rev l) = forallb p l.
Proof.
  induction l as [|x l IH]; simpl; [reflexivity|].
  rewrite forallb_app, IH. simpl. rewrite andb_true_r. apply andb_comm.
Qed.

Lemma codePoints_nonempty (s : string) :
  Forall (fun codePoint => codePoint <> "") (SessionsRoute.codePoints s).
Proof.
  remember (String.length s) as n eqn:Hn.
  assert (Hlen : (String.length s <= n)%nat) by lia. clear Hn.
  revert s Hlen. induction n as [|n IH]; intros s Hlen.
  - destruct s; [constructor | simpl in Hlen; lia].
  - destruct s as [|c1 r1]; [constructor|].
    cbn [SessionsRoute.codePoints]. simpl in Hlen.
    destruct (N_of_ascii c1 <? 192)%N;
      [constructor; [discriminate | apply IH; lia]|].
    destruct r1 as [|c2 r2]; [repeat constructor; discriminate|].
    simpl in Hlen.
    destruct (N_of_ascii c1 <? 224)%N;
      [constructor; [discriminate | apply IH; lia]|].
    destruct r2 as [|c3 r3]; [repeat constructor; discriminate|].
    simpl in Hlen.
    destruct (N_of_ascii c1 <? 240)%N;
      [constructor; [discriminate | apply IH; lia]|].
    destruct r3 as [|c4 r4]; [repeat constructor; discriminate|].
    simpl in Hlen.
    constructor; [discriminate | apply IH; lia].
Qed.

Lemma concat_nonempty (l : list string) :
  Forall (fun codePoint => codePoint <> "") l ->
  String.concat "" l = "" -> l = [].
Proof.
  intros Hall Hempty. destruct l as [|x rest]; [reflexivity|].
  inversion Hall as [|? ? Hx _]; subst.
  destruct x as [|c x']; [congruence|].
  simpl in Hempty. destruct rest; discriminate.
Qed.

(** The trimmed name is empty exactly for a name of white space only. *)
Lemma trim_blank (s : string) :
  String.eqb (SessionsRoute.trim s) "" = blank s.
Proof.
  unfold SessionsRoute.trim, SessionsRoute.trimEnd, SessionsRoute.trimStart,
    blank.
  pose proof (codePoints_nonempty s) as Hne.
  set (cps := SessionsRoute.codePoints s) in *.
  destruct (forallb SessionsRoute.isWhiteSpace cps) eqn:Hb.
  - apply dropWhile_nil in Hb. rewrite Hb. reflexivity.
  - apply String.eqb_neq. intros Hempty.
    apply concat_nonempty in Hempty.
    + apply (f_equal (@rev string)) in Hempty.
      rewrite rev_involutive in Hempty. simpl in Hempty.
      apply dropWhile_nil in Hempty. rewrite forallb_rev in Hempty.
      destruct (SessionsRoute.dropWhile SessionsRoute.isWhiteSpace cps)
        as [|x rest] eqn:Hdrop.
      * apply dropWhile_nil in Hdrop. congruence.
      * assert (Hx : SessionsRoute.isWhiteSpace x = false).
        { clear -Hdrop. induction cps as [|y cps IH]; simpl in Hdrop;
            [discriminate|].
          destruct (SessionsRoute.isWhiteSpace y) eqn:Hy;
            [exact (IH Hdrop) | congruence]. }
        simpl in Hempty. rewrite Hx in Hempty. discriminate.
    + apply Forall_rev, dropWhile_Forall, Forall_rev, dropWhile_Forall, Hne.
Qed.

Example trim_sample :
  SessionsRoute.trim
    (String "194" (String "160" (" Bob Ross "
       ++ String "227" (String "128" (String "128" "")))))%string
  = "Bob Ross".
Proof. reflexivity. Qed.

Lemma findOne_app sessionId (c l : list ProctorSession.t) :
  Mongo.findOne sessionId (c ++ l)
  = match Mongo.findOne sessionId c with
    | Some s => Some s
    | None => Mongo.findOne sessionId l
    end.
Proof.
  induction c as [|doc rest IH]; simpl; [reflexivity|].
  destruct (String.eqb (ProctorSession.sessionId doc) sessionId);
    [reflexivity | exact IH].
Qed.

Lemma create_accepted db name r clock :
  blank name = false ->
  SessionsRoute.create db name r clock
  = (mkDb (collection_sessions db
           ++ [SessionsRoute.newSession (sessionIdOf r)
                 (SessionsRoute.trim name) (DateAt clock)])
          (collection_events db),
     Success (SessionsRoute.mkCreated (sessionIdOf r) name (DateAt clock))).
Proof.
  intros Hb. unfold SessionsRoute.create. rewrite trim_blank, Hb. reflexivity.
Qed.

Lemma create_rejected db name r clock :
  blank name = true ->
  SessionsRoute.create db name r clock
  = (db, Failure 400 "Candidate name is required").
Proof.
  intros Hb. unfold SessionsRoute.create. rewrite trim_blank, Hb. reflexivity.
Qed.

Lemma POST_named db name r clock :
  blank name = false ->
  SessionsRoute.POST db (SessionsRoute.Object (Some name)) r clock
  = SessionsRoute.POST db (SessionsRoute.Text name) r clock.
Proof.
  intros Hb. simpl. destruct name; [discriminate | reflexivity].
Qed.

(** X7: a name that is not all white space, sent as text or in an object,
    creates a session: the response echoes the name as it was sent, and
    when the new id was not in use the get route then returns the new
    record: the name trimmed, status active, no end time, all counters
    zero and score 100. *)
Theorem X7_created_session_is_stored_and_found
    (db : Db) (requestData : SessionsRoute.RequestData) (name : string)
    (r : Entropy) (clock : Z) :
  requestData = SessionsRoute.Text name
  \/ requestData = SessionsRoute.Object (Some name) ->
  blank name = false ->
  lookup db (sessionIdOf r) = None ->
  snd (SessionsRoute.POST db requestData r clock)
  = Success (SessionsRoute.mkCreated (sessionIdOf r) name (DateAt clock))
  /\ snd (SessionRoute.GET (fst (SessionsRoute.POST db requestData r clock))
            (sessionIdOf r))
     = Success
         {| ProctorSession.sessionId := sessionIdOf r;
            ProctorSession.candidateName := SessionsRoute.trim name;
            ProctorSession.startTime := DateAt clock;
            ProctorSession.endTime := None;
            ProctorSession.duration := 0;
            ProctorSession.totalEvents := 0;
            ProctorSession.lookingAwayCount := 0;
            ProctorSession.noFaceCount := 0;
            ProctorSession.multipleFaceCount := 0;
            ProctorSession.unauthorizedObjectCount := 0;
            ProctorSession.integrityScore := 100;
            ProctorSession.status := active;
            ProctorSession.events := [] |}.
Proof.
  intros Hreq Hb Hfree.
  assert (Hpost : SessionsRoute.POST db requestData r clock
                  = SessionsRoute.create db name r clock).
  { destruct Hreq as [-> | ->]; [reflexivity|].
    rewrite (POST_named _ _ _ _ Hb). reflexivity. }
  rewrite Hpost, (create_accepted _ _ _ _ Hb). split; [reflexivity|].
  unfold SessionRoute.GET. cbn [fst collection_sessions].
  rewrite findOne_app. unfold lookup in Hfree. rewrite Hfree.
  cbn [Mongo.findOne SessionsRoute.newSession ProctorSession.sessionId].
  rewrite String.eqb_refl. reflexivity.
Qed.

Lemma X7_witness :
  snd (SessionsRoute.POST Sample.started (SessionsRoute.Text "  Bob ")
         (mkEntropy 1700000000700 "b0b0b0b0b") 1700000000701)
  = Success (SessionsRoute.mkCreated "session_1700000000700_b0b0b0b0b"
               "  Bob " (DateAt 1700000000701))
  /\ snd (SessionRoute.GET
            (fst (SessionsRoute.POST Sample.started
                    (SessionsRoute.Text "  Bob ")
                    (mkEntropy 1700000000700 "b0b0b0b0b") 1700000000701))
            "session_1700000000700_b0b0b0b0b")
     = Success (SessionsRoute.newSession "session_1700000000700_b0b0b0b0b"
                  "Bob" (DateAt 1700000000701)).
Proof.
  apply (X7_created_session_is_stored_and_found Sample.started
           (SessionsRoute.Text "  Bob ") "  Bob "
           (mkEntropy 1700000000700 "b0b0b0b0b") 1700000000701).
  - left. reflexivity.
  - reflexivity.
  - reflexivity.
Defined.

Lemma POST_create_cases db requestData r clock :
  fst (SessionsRoute.POST db requestData r clock) = db
  \/ exists name,
      fst (SessionsRoute.POST db requestData r clock)
      = mkDb (collection_sessions db
              ++ [SessionsRoute.newSession (sessionIdOf r)
                    (SessionsRoute.trim name) (DateAt clock)])
             (collection_events db).
Proof.
  assert (Hcreate : forall name,
             fst (SessionsRoute.create db name r clock) = db
             \/ exists name',
                 fst (SessionsRoute.create db name r clock)
                 = mkDb (collection_sessions db
                         ++ [SessionsRoute.newSession (sessionIdOf r)
                               (SessionsRoute.trim name') (DateAt clock)])
                        (collection_events db)).
  { intros name. destruct (blank name) eqn:Hb.
    - left. now rewrite create_rejected.
    - right. exists name. now rewrite create_accepted. }
  destruct requestData as [name | [name|]]; simpl.
  - apply Hcreate.
  - destruct (String.eqb name ""); [left; reflexivity | apply Hcreate].
  - left. reflexivity.
Qed.

(** X8: creation never disturbs what is stored.  Whatever the request, every
    session that could be looked up before is still the one found under its
    id afterwards, even if the generated id collides with it; a lookup under
    any id other than the generated one is unchanged; and the events
    collection is untouched. *)
Theorem X8_creation_keeps_stored_sessions
    (db : Db) (requestData : SessionsRoute.RequestData) (r : Entropy)
    (clock : Z) (sessionId : string) :
  (forall s,
      lookup db sessionId = Some s ->
      lookup (fst (SessionsRoute.POST db requestData r clock)) sessionId
      = Some s)
  /\ (sessionId <> sessionIdOf r ->
      lookup (fst (SessionsRoute.POST db requestData r clock)) sessionId
      = lookup db sessionId)
  /\ collection_events (fst (SessionsRoute.POST db requestData r clock))
     = collection_events db.
Proof.
  destruct (POST_create_cases db requestData r clock) as [-> | [name ->]].
  - repeat split; auto.
  - unfold lookup. cbn [collection_sessions collection_events].
    rewrite findOne_app. repeat split.
    + intros s Hs. now rewrite Hs.
    + intros Hneq. destruct (Mongo.findOne sessionId (collection_sessions db));
        [reflexivity|].
      cbn [Mongo.findOne SessionsRoute.newSession ProctorSession.sessionId].
      apply not_eq_sym, String.eqb_neq in Hneq. now rewrite Hneq.
Qed.

Lemma X8_witness :
  lookup (fst (SessionsRoute.POST Sample.afterA (SessionsRoute.Text "Mallory")
                 (mkEntropy 1700000000000 "a1b2c3d4e") 1700000009999))
    Sample.aliceId
  = lookup Sample.afterA Sample.aliceId.
Proof.
  destruct (X8_creation_keeps_stored_sessions Sample.afterA
              (SessionsRoute.Text "Mallory")
              (mkEntropy 1700000000000 "a1b2c3d4e") 1700000009999
              Sample.aliceId) as (Hkeep & _ & _).
  rewrite (Hkeep (applyUpdate 1 (mkCounts 1 0 0 0) 98
                    (SessionsRoute.newSession Sample.aliceId "Alice"
                       (DateAt 1700000000000)))); vm_compute; reflexivity.
Defined.

(** X9: a name sent as text is refused with 400 "Candidate name is
    required", the store unchanged, exactly when it consists only of white
    space as [trim] strips it, the no-break space and the other Unicode
    spaces and line terminators included, as is the empty name; any other
    name adds one session record. *)
Theorem X9_blank_name_is_refused
    (db : Db) (name : string) (r : Entropy) (clock : Z) :
  (SessionsRoute.POST db (SessionsRoute.Text name) r clock
   = (db, Failure 400 "Candidate name is required")
   <-> blank name = true)
  /\ (blank name = false ->
      List.length (collection_sessions
                     (fst (SessionsRoute.POST db (SessionsRoute.Text name)
                             r clock)))
      = S (List.length (collection_sessions db))).
Proof.
  cbn [SessionsRoute.POST]. split; [split|].
  - intros Hpost. destruct (blank name) eqn:Hb; [reflexivity|].
    rewrite (create_accepted _ _ _ _ Hb) in Hpost. discriminate.
  - apply create_rejected.
  - intros Hb. rewrite (create_accepted _ _ _ _ Hb).
    cbn [fst collection_sessions]. rewrite length_app. simpl. lia.
Qed.

Lemma X9_witness :
  SessionsRoute.POST Sample.started
    (SessionsRoute.Text
       (String "194" (String "160"
          (String " " (String "227" (String "128" (String "128" "")))))))
    (mkEntropy 1700000000700 "b0b0b0b0b") 1700000000701
  = (Sample.started, Failure 400 "Candidate name is required").
Proof.
  apply (proj1 (X9_blank_name_is_refused Sample.started
                  (String "194" (String "160"
                     (String " " (String "227" (String "128"
                                                  (String "128" ""))))))
                  (mkEntropy 1700000000700 "b0b0b0b0b") 1700000000701)).
  reflexivity.
Defined.

(** ** The patch route on a stored session *)

Section UpdateAt.
Variable sessionId : string.
Variable update : ProctorSession.t -> ProctorSession.t.
Hypothesis update_keeps_matched :
  forall doc,
    ProctorSession.sessionId doc = sessionId ->
    ProctorSession.sessionId (update doc) = sessionId.



Lemma updateAt_twice (c : list ProctorSession.t) :
  (forall doc, update (update doc) = update doc) ->
  Mongo.updateOne sessionId update (fst (Mongo.updateOne sessionId update c))
  = Mongo.updateOne sessionId update c.
Proof.
  intros Hidem. induction c as [|doc rest IH]; simpl; [reflexivity|].
  destruct (String.eqb (ProctorSession.sessionId doc) sessionId) eqn:E.
  - simpl. apply String.eqb_eq in E.
    rewrite (update_keeps_matched _ E), String.eqb_refl, Hidem. reflexivity.
  - destruct (Mongo.updateOne sessionId update rest) as [rest' m] eqn:Hrest.
    simpl in *. rewrite E, IH. reflexivity.
Qed.
End UpdateAt.

Lemma applySet_keeps_matched sessionId updates :
  (forall new, SessionRoute.sessionId updates = Some new -> new = sessionId) ->
  forall doc,
    ProctorSession.sessionId doc = sessionId ->
    ProctorSession.sessionId (SessionRoute.applySet updates doc) = sessionId.
Proof.
  intros Hsame doc Hdoc. cbn [SessionRoute.applySet ProctorSession.sessionId].
  destruct (SessionRoute.sessionId updates) as [new|]; simpl;
    [now apply Hsame | exact Hdoc].
Qed.

Lemma applySet_twice updates doc :
  SessionRoute.applySet updates (SessionRoute.applySet updates doc)
  = SessionRoute.applySet updates doc.
Proof.
  destruct updates as [n e d t la nf mf uo sc st id start evs].
  unfold SessionRoute.applySet. simpl.
  destruct n, d, t, la, nf, mf, uo, sc, st, id, start, evs; reflexivity.
Qed.



(** X11: a patch that does not change the session id is idempotent:
    sending it a second time gives the same response and leaves the store
    as the first left it, whether or not the session exists. *)
Theorem X11_patch_twice_is_patch_once
    (db : Db) (sessionId : string) (updates : SessionRoute.Updates) :
  (forall new, SessionRoute.sessionId updates = Some new -> new = sessionId) ->
  SessionRoute.PATCH (fst (SessionRoute.PATCH db sessionId updates))
    sessionId updates
  = SessionRoute.PATCH db sessionId updates.
Proof.
  intros Hsame.
  pose proof (updateAt_twice sessionId (SessionRoute.applySet updates)
                (applySet_keeps_matched sessionId updates Hsame)
                (collection_sessions db) (applySet_twice updates)) as Htwice.
  unfold SessionRoute.PATCH.
  destruct (Mongo.updateOne sessionId (SessionRoute.applySet updates)
              (collection_sessions db)) as [sessions' matchedCount] eqn:H1.
  cbn [fst] in Htwice.
  assert (Hfst : fst (if matchedCount =? 0
                      then (mkDb sessions' (collection_events db),
                            @Failure unit 404 "Session not found")
                      else (mkDb sessions' (collection_events db), Success tt))
                 = mkDb sessions' (collection_events db))
    by (destruct (matchedCount =? 0); reflexivity).
  rewrite Hfst. cbn [collection_sessions collection_events].
  rewrite Htwice. reflexivity.
Qed.

Lemma X11_witness :
  SessionRoute.PATCH
    (fst (SessionRoute.PATCH Sample.afterA Sample.aliceId
            (SessionRoute.mkUpdates (Some "Alice L.") None (Some 2800) None
               None None None None None (Some completed) None None None)))
    Sample.aliceId
    (SessionRoute.mkUpdates (Some "Alice L.") None (Some 2800) None None None
       None None None (Some completed) None None None)
  = SessionRoute.PATCH Sample.afterA Sample.aliceId
      (SessionRoute.mkUpdates (Some "Alice L.") None (Some 2800) None None
         None None None None (Some completed) None None None).
Proof.
  apply (X11_patch_twice_is_patch_once Sample.afterA Sample.aliceId
           (SessionRoute.mkUpdates (Some "Alice L.") None (Some 2800) None
              None None None None None (Some completed) None None None)).
  intros new H. discriminate H.
Defined.

Section Rename.
Variables sessionId new : string.
Variable update : ProctorSession.t -> ProctorSession.t.
Hypothesis update_renames :
  forall doc, ProctorSession.sessionId (update doc) = new.
Hypothesis new_differs : new <> sessionId.

Lemma rename_hit (c : list ProctorSession.t) (s : ProctorSession.t) :
  Mongo.findOne sessionId c = Some s ->
  snd (Mongo.updateOne sessionId update c) = 1.
Proof.
  induction c as [|doc rest IH]; simpl; [discriminate|].
  destruct (String.eqb (ProctorSession.sessionId doc) sessionId);
    [reflexivity|].
  intros Hs. specialize (IH Hs).
  destruct (Mongo.updateOne sessionId update rest) as [rest' m]. exact IH.
Qed.

Lemma rename_found_under_new (c : list ProctorSession.t)
    (s : ProctorSession.t) :
  Mongo.findOne new c = None ->
  Mongo.findOne sessionId c = Some s ->
  Mongo.findOne new (fst (Mongo.updateOne sessionId update c))
  = Some (update s).
Proof.
  induction c as [|doc rest IH]; simpl; [discriminate|].
  destruct (String.eqb (ProctorSession.sessionId doc) new) eqn:Enew;
    [discriminate|].
  intros Hnone.
  destruct (String.eqb (ProctorSession.sessionId doc) sessionId) eqn:E.
  - intros [= <-]. simpl. now rewrite update_renames, String.eqb_refl.
  - intros Hs. specialize (IH Hnone Hs).
    destruct (Mongo.updateOne sessionId update rest) as [rest' m].
    simpl in *. now rewrite Enew.
Qed.

Lemma rename_lost_under_old (c : list ProctorSession.t) :
  List.length
    (filter (fun s => String.eqb (ProctorSession.sessionId s) sessionId) c)
  = 1%nat ->
  Mongo.findOne sessionId (fst (Mongo.updateOne sessionId update c)) = None.
Proof.
  induction c as [|doc rest IH]; simpl; [discriminate|].
  destruct (String.eqb (ProctorSession.sessionId doc) sessionId) eqn:E.
  - simpl. intros [= Hrest]. rewrite update_renames.
    apply String.eqb_neq in new_differs. rewrite new_differs.
    clear -Hrest. induction rest as [|doc' rest IH]; simpl in *;
      [reflexivity|].
    destruct (String.eqb (ProctorSession.sessionId doc') sessionId);
      [discriminate | exact (IH Hrest)].
  - intros Hone. specialize (IH Hone).
    destruct (Mongo.updateOne sessionId update rest) as [rest' m].
    simpl in *. now rewrite E.
Qed.
End Rename.

(** X24: a patch that carries another session id renames the record.  When
    one record is stored under the id of the route and none under the new
    id, the patch succeeds, the patched record is then found under the new
    id and nothing under the old one, and sending the same patch again is
    answered 404 "Session not found". *)
Theorem X24_patch_with_another_id_renames
    (db : Db) (sessionId new : string) (s : ProctorSession.t)
    (updates : SessionRoute.Updates) :
  lookup db sessionId = Some s ->
  List.length (recordsOf db sessionId) = 1%nat ->
  SessionRoute.sessionId updates = Some new ->
  new <> sessionId ->
  lookup db new = None ->
  snd (SessionRoute.PATCH db sessionId updates) = Success tt
  /\ lookup (fst (SessionRoute.PATCH db sessionId updates)) new
     = Some (SessionRoute.applySet updates s)
  /\ ProctorSession.sessionId (SessionRoute.applySet updates s) = new
  /\ lookup (fst (SessionRoute.PATCH db sessionId updates)) sessionId = None
  /\ SessionRoute.PATCH (fst (SessionRoute.PATCH db sessionId updates))
       sessionId updates
     = (fst (SessionRoute.PATCH db sessionId updates),
        Failure 404 "Session not found").
Proof.
  intros Hs Hone Hnew Hneq Hfree. unfold lookup, recordsOf in *.
  assert (Hren : forall doc,
             ProctorSession.sessionId (SessionRoute.applySet updates doc)
             = new).
  { intros doc. cbn [SessionRoute.applySet ProctorSession.sessionId].
    now rewrite Hnew. }
  pose proof (rename_hit sessionId (SessionRoute.applySet updates) _ _ Hs)
    as Hcount.
  pose proof (rename_found_under_new sessionId new
                (SessionRoute.applySet updates) Hren _ _ Hfree Hs) as Hfound.
  pose proof (rename_lost_under_old sessionId new
                (SessionRoute.applySet updates) Hren Hneq _ Hone) as Hlost.
  assert (Hpatch : SessionRoute.PATCH db sessionId updates
                   = (mkDb (fst (Mongo.updateOne sessionId
                                   (SessionRoute.applySet updates)
                                   (collection_sessions db)))
                           (collection_events db), Success tt)).
  { unfold SessionRoute.PATCH.
    destruct (Mongo.updateOne sessionId (SessionRoute.applySet updates)
                (collection_sessions db)) as [sessions' matchedCount].
    cbn [snd] in Hcount. subst matchedCount. reflexivity. }
  rewrite Hpatch. cbn [fst snd collection_sessions].
  split; [reflexivity|]. split; [exact Hfound|]. split; [apply Hren|].
  split; [exact Hlost|].
  unfold SessionRoute.PATCH. cbn [collection_sessions collection_events].
  rewrite updateOne_miss by exact Hlost. reflexivity.
Qed.

Lemma X24_witness :
  snd (SessionRoute.PATCH Sample.afterA Sample.aliceId
         (SessionRoute.mkUpdates None None None None None None None None None
            None (Some "session_renamed") None None))
  = Success tt
  /\ lookup (fst (SessionRoute.PATCH Sample.afterA Sample.aliceId
                    (SessionRoute.mkUpdates None None None None None None
                       None None None None (Some "session_renamed") None
                       None)))
       Sample.aliceId = None
  /\ SessionRoute.PATCH
       (fst (SessionRoute.PATCH Sample.afterA Sample.aliceId
               (SessionRoute.mkUpdates None None None None None None None
                  None None None (Some "session_renamed") None None)))
       Sample.aliceId
       (SessionRoute.mkUpdates None None None None None None None None None
          None (Some "session_renamed") None None)
     = (fst (SessionRoute.PATCH Sample.afterA Sample.aliceId
               (SessionRoute.mkUpdates None None None None None None None
                  None None None (Some "session_renamed") None None)),
        Failure 404 "Session not found").
Proof.
  destruct (X24_patch_with_another_id_renames Sample.afterA Sample.aliceId
              "session_renamed"
              (applyUpdate 1 (mkCounts 1 0 0 0) 98
                 (SessionsRoute.newSession Sample.aliceId "Alice"
                    (DateAt 1700000000000)))
              (SessionRoute.mkUpdates None None None None None None None
                 None None None (Some "session_renamed") None None))
    as (Hresp & _ & _ & Hlost & Hagain).
  - vm_compute. reflexivity.
  - reflexivity.
  - reflexivity.
  - discriminate.
  - reflexivity.
  - split; [exact Hresp|]. split; [exact Hlost | exact Hagain].
Defined.

(** ** Saving a finished session *)

Section Replace.
Variable d : ProctorSession.t.

Let sid := ProctorSession.sessionId d.

Lemma replace_found (c : list ProctorSession.t) (s : ProctorSession.t) :
  Mongo.findOne sid c = Some s ->
  Mongo.findOne sid (fst (Mongo.updateOne sid (fun _ => d) c)) = Some d.
Proof.
  induction c as [|doc rest IH]; simpl; [discriminate|].
  destruct (String.eqb (ProctorSession.sessionId doc) sid) eqn:E.
  - intros _. simpl. fold sid. now rewrite String.eqb_refl.
  - intros Hs. specialize (IH Hs).
    destruct (Mongo.updateOne sid (fun _ => d) rest) as [rest' m].
    simpl in *. now rewrite E.
Qed.

Lemma replace_other (other : string) (c : list ProctorSession.t) :
  other <> sid ->
  Mongo.findOne other (fst (Mongo.updateOne sid (fun _ => d) c))
  = Mongo.findOne other c.
Proof.
  intros Hneq. induction c as [|doc rest IH]; simpl; [reflexivity|].
  destruct (String.eqb (ProctorSession.sessionId doc) sid) eqn:E.
  - simpl. fold sid. apply String.eqb_eq in E. rewrite E.
    apply not_eq_sym, String.eqb_neq in Hneq. now rewrite Hneq.
  - destruct (Mongo.updateOne sid (fun _ => d) rest) as [rest' m].
    simpl in *. now rewrite IH.
Qed.




End Replace.

Lemma save_branch db data r clock :
  SessionsSave.sessionId data <> "" ->
  SessionsSave.POST db (SessionsSave.Saving data) r clock
  = SessionsSave.save db data.
Proof.
  intros Hid. apply String.eqb_neq in Hid. cbn [SessionsSave.POST].
  rewrite Hid, andb_false_r. reflexivity.
Qed.

Lemma save_lookup db data :
  lookup (fst (SessionsSave.save db data)) (SessionsSave.sessionId data)
  = Some (SessionsSave.sessionData data).
Proof.
  unfold SessionsSave.save, lookup.
  destruct (Mongo.findOne (SessionsSave.sessionId data)
              (collection_sessions db)) as [existing|] eqn:Hfind;
    cbn [fst collection_sessions].
  - exact (replace_found (SessionsSave.sessionData data) _ _ Hfind).
  - unfold Mongo.insertOne. rewrite findOne_app, Hfind.
    cbn [Mongo.findOne SessionsSave.sessionData ProctorSession.sessionId].
    now rewrite String.eqb_refl.
Qed.

(** X12: saving a finished session under a non-empty id is an upsert whose
    two paths meet: whether a record was stored under the id (it is
    overwritten, "Session updated successfully") or not (one is inserted,
    "Session saved successfully"), the record found under the id afterwards
    is the one sent, with its dates built from the texts sent; lookups
    under other ids and the events collection are unchanged. *)
Theorem X12_saved_session_is_the_one_found
    (db : Db) (data : SessionsSave.SessionData) (r : Entropy) (clock : Z) :
  SessionsSave.sessionId data <> "" ->
  snd (SessionsSave.POST db (SessionsSave.Saving data) r clock)
  = Success
      (SessionsSave.Saved
         (match lookup db (SessionsSave.sessionId data) with
          | Some _ => "Session updated successfully"
          | None => "Session saved successfully"
          end) (SessionsSave.sessionId data))
  /\ lookup (fst (SessionsSave.POST db (SessionsSave.Saving data) r clock))
       (SessionsSave.sessionId data)
     = Some (SessionsSave.sessionData data)
  /\ (forall other,
         other <> SessionsSave.sessionId data ->
         lookup (fst (SessionsSave.POST db (SessionsSave.Saving data) r clock))
           other
         = lookup db other)
  /\ collection_events
       (fst (SessionsSave.POST db (SessionsSave.Saving data) r clock))
     = collection_events db.
Proof.
  intros Hid. rewrite (save_branch _ _ _ _ Hid).
  split; [|split; [apply save_lookup|]].
  - unfold SessionsSave.save, lookup.
    destruct (Mongo.findOne _ _); reflexivity.
  - unfold SessionsSave.save, lookup.
    destruct (Mongo.findOne (SessionsSave.sessionId data)
                (collection_sessions db)) as [existing|] eqn:Hfind;
      cbn [fst collection_sessions collection_events];
      (split; [|reflexivity]); intros other Hneq.
    + exact (replace_other (SessionsSave.sessionData data) other _ Hneq).
    + unfold Mongo.insertOne. rewrite findOne_app.
      destruct (Mongo.findOne other (collection_sessions db)); [reflexivity|].
      cbn [Mongo.findOne SessionsSave.sessionData ProctorSession.sessionId].
      apply not_eq_sym, String.eqb_neq in Hneq. now rewrite Hneq.
Qed.

Lemma X12_witness :
  snd (SessionsSave.POST Sample.afterA (SessionsSave.Saving SamplePage.data)
         (mkEntropy 0 "") 0)
  = Success (SessionsSave.Saved "Session updated successfully" Sample.aliceId)
  /\ lookup (fst (SessionsSave.POST Sample.afterA
                    (SessionsSave.Saving SamplePage.data) (mkEntropy 0 "") 0))
       Sample.aliceId
     = Some (SessionsSave.sessionData SamplePage.data).
Proof.
  destruct (X12_saved_session_is_the_one_found Sample.afterA SamplePage.data
              (mkEntropy 0 "") 0) as (Hresp & Hfound & _); [discriminate|].
  split; [exact Hresp | exact Hfound].
Defined.



(** ** The interview page *)

Lemma handleNewEvent_counts state event :
  statsCounts (InterviewPage.sessionStats
                 (InterviewPage.handleNewEvent state event))
  = countEvent (statsCounts (InterviewPage.sessionStats state)) (asJson event).
Proof.
  unfold InterviewPage.handleNewEvent, statsCounts, countEvent, asJson.
  cbn [InterviewPage.sessionStats ProctorMonitor.lookingAwayCount
         ProctorMonitor.noFaceCount ProctorMonitor.multipleFaceCount
         ProctorMonitor.unauthorizedObjectCount DetectionEvent.j_eventType
         lookingAwayCount noFaceCount multipleFaceCount
         unauthorizedObjectCount].
  destruct (String.eqb (InterviewPage.event_type event) "looking_away") eqn:E1;
    [apply String.eqb_eq in E1; rewrite E1; reflexivity|].
  destruct (String.eqb (InterviewPage.event_type event) "no_face") eqn:E2;
    [apply String.eqb_eq in E2; rewrite E2; reflexivity|].
  destruct (String.eqb (InterviewPage.event_type event) "multiple_faces") eqn:E3;
    [apply String.eqb_eq in E3; rewrite E3; reflexivity|].
  destruct (String.eqb (InterviewPage.event_type event) "unauthorized_object");
    reflexivity.
Qed.

Lemma handleNewEvent_run (events : list InterviewPage.DetectionEventData) :
  forall state,
    let state' := fold_left InterviewPage.handleNewEvent events state in
    InterviewPage.events state' = InterviewPage.events state ++ events
    /\ ProctorMonitor.totalEvents (InterviewPage.sessionStats state')
       = ProctorMonitor.totalEvents (InterviewPage.sessionStats state)
         + Z.of_nat (List.length events)
    /\ ProctorMonitor.duration (InterviewPage.sessionStats state')
       = ProctorMonitor.duration (InterviewPage.sessionStats state)
    /\ statsCounts (InterviewPage.sessionStats state')
       = plus (statsCounts (InterviewPage.sessionStats state))
           (countEvents (map asJson events)).
Proof.
  induction events as [|event rest IH]; intros state; cbv zeta.
  - simpl. rewrite app_nil_r, plus_noCounts_r. repeat split. lia.
  - cbn [fold_left map].
    destruct (IH (InterviewPage.handleNewEvent state event))
      as (He & Ht & Hd & Hc).
    rewrite He, Ht, Hd, Hc, handleNewEvent_counts, countEvents_cons.
    cbn [InterviewPage.handleNewEvent InterviewPage.events
           InterviewPage.sessionStats ProctorMonitor.totalEvents
           ProctorMonitor.duration].
    repeat split.
    + now rewrite <- app_assoc.
    + cbn [List.length]. lia.
    + rewrite (countEvent_plus (statsCounts _)). now rewrite plus_assoc.
Qed.

Lemma calculateIntegrityScore_statsCounts stats :
  ProctorMonitor.calculateIntegrityScore stats = scoreOf (statsCounts stats).
Proof. reflexivity. Qed.

(** X14: the statistics the interview page keeps agree with the events
    route.  After any run of [handleNewEvent] from the initial state the
    page holds the events in arrival order, [totalEvents] is their number,
    the four counts are the counts the route would take of the same events
    posted as one batch, and the score the monitor shows is the score the
    route would return for that batch. *)
Theorem X14_page_statistics_match_route_counts
    (events : list InterviewPage.DetectionEventData) :
  InterviewPage.events
    (fold_left InterviewPage.handleNewEvent events InterviewPage.initial)
  = events
  /\ ProctorMonitor.totalEvents
       (InterviewPage.sessionStats
          (fold_left InterviewPage.handleNewEvent events InterviewPage.initial))
     = Z.of_nat (List.length events)
  /\ statsCounts
       (InterviewPage.sessionStats
          (fold_left InterviewPage.handleNewEvent events InterviewPage.initial))
     = countEvents (map asJson events)
  /\ ProctorMonitor.calculateIntegrityScore
       (InterviewPage.sessionStats
          (fold_left InterviewPage.handleNewEvent events InterviewPage.initial))
     = scoreOf (countEvents (map asJson events)).
Proof.
  destruct (handleNewEvent_run events InterviewPage.initial)
    as (He & Ht & _ & Hc).
  rewrite calculateIntegrityScore_statsCounts, He, Ht, Hc.
  cbn [InterviewPage.initial InterviewPage.events InterviewPage.sessionStats
         ProctorMonitor.totalEvents app].
  change (statsCounts (ProctorMonitor.mkStats 0 0 0 0 0 0)) with noCounts.
  rewrite plus_noCounts_l. repeat split.
Qed.

(** X15: the record that ends a session satisfies the score invariant.
    Whatever the page state and whatever was stored before, after the page's
    [saveSessionToMongoDB] data are posted under a non-empty id the record
    found under that id is completed, has an end time, carries the page's
    counts, and its [integrityScore] is the contract score of its own
    counters, equal to the score the monitor shows. *)
Theorem X15_saved_record_scores_its_own_counters
    (db : Db) (sessionId candidateName sessionStartTime endTime : string)
    (state : InterviewPage.State) (r : Entropy) (clock : Z) :
  sessionId <> "" ->
  exists s',
    lookup (fst (SessionsSave.POST db
                   (SessionsSave.Saving
                      (InterviewPage.saveSessionToMongoDB sessionId
                         candidateName sessionStartTime endTime state))
                   r clock)) sessionId = Some s'
    /\ ProctorSession.integrityScore s' = score (counters s')
    /\ ProctorSession.integrityScore s'
       = ProctorMonitor.calculateIntegrityScore
           (InterviewPage.sessionStats state)
    /\ counters s' = statsCounts (InterviewPage.sessionStats state)
    /\ ProctorSession.totalEvents s'
       = ProctorMonitor.totalEvents (InterviewPage.sessionStats state)
    /\ ProctorSession.status s' = completed
    /\ ProctorSession.endTime s' = Some (DateOf endTime)
    /\ List.length (ProctorSession.events s')
       = List.length (InterviewPage.events state).
Proof.
  intros Hid. eexists. split.
  - rewrite save_branch by exact Hid.
    exact (save_lookup db (InterviewPage.saveSessionToMongoDB sessionId
                             candidateName sessionStartTime endTime state)).
  - cbn [SessionsSave.sessionData InterviewPage.saveSessionToMongoDB
           ProctorSession.integrityScore ProctorSession.totalEvents
           ProctorSession.status ProctorSession.endTime ProctorSession.events
           SessionsSave.integrityScore SessionsSave.totalEvents
           SessionsSave.status SessionsSave.endTime SessionsSave.events].
    rewrite length_map. repeat split.
    unfold score, Spec.score, counters.
    cbn -[Z.mul Z.add Z.sub Z.max]. f_equal. lia.
Qed.

Lemma X15_witness :
  exists s',
    lookup (fst (SessionsSave.POST Sample.afterB
                   (SessionsSave.Saving SamplePage.data) (mkEntropy 0 "") 0))
      Sample.aliceId = Some s'
    /\ ProctorSession.integrityScore s' = score (counters s')
    /\ ProctorSession.integrityScore s' = 95.
Proof.
  destruct (X15_saved_record_scores_its_own_counters Sample.afterB
              Sample.aliceId "Alice" "2023-11-14T22:13:20.000Z"
              "2023-11-14T23:00:00.000Z" SamplePage.state (mkEntropy 0 "") 0)
    as (s' & Hs' & Hscore & Hshown & _); [discriminate|].
  exists s'. split; [exact Hs'|]. split; [exact Hscore|].
  rewrite Hshown. reflexivity.
Defined.

Lemma handleNewEvent_keeps_consistent events state :
  consistent state ->
  consistent (fold_left InterviewPage.handleNewEvent events state).
Proof.
  unfold consistent. cbv zeta. intros [Ht Hc].
  destruct (handleNewEvent_run events state) as (He & Ht' & _ & Hc').
  rewrite He, Ht', Hc', Ht, Hc, length_app, map_app, countEvents_app.
  split; [lia | reflexivity].
Qed.

Lemma onmessage_keeps_consistent data state :
  consistent state ->
  consistent (VideoStream.onmessage InterviewPage.handleNewEvent state data).
Proof.
  intros Hc. destruct data as [type [events|]|]; simpl; try exact Hc.
  destruct (String.eqb type "events"); [|exact Hc].
  apply handleNewEvent_keeps_consistent, Hc.
Qed.

(** X16: the page's statistics stay consistent with its list of events over
    any stream of socket messages, whichever of them carry events:
    [totalEvents] is the number of events held, the four counts are the
    counts of those events, so they are not negative and their sum is at
    most [totalEvents], and the score shown lies between 0 and 100. *)
Theorem X16_message_stream_keeps_page_consistent
    (messages : list VideoStream.Data) (state : InterviewPage.State) :
  consistent state ->
  consistent
    (fold_left (VideoStream.onmessage InterviewPage.handleNewEvent)
       messages state)
  /\ (forall stats,
         stats = InterviewPage.sessionStats
                   (fold_left
                      (VideoStream.onmessage InterviewPage.handleNewEvent)
                      messages state) ->
         0 <= ProctorMonitor.lookingAwayCount stats
         /\ 0 <= ProctorMonitor.noFaceCount stats
         /\ 0 <= ProctorMonitor.multipleFaceCount stats
         /\ 0 <= ProctorMonitor.unauthorizedObjectCount stats
         /\ ProctorMonitor.lookingAwayCount stats
            + ProctorMonitor.noFaceCount stats
            + ProctorMonitor.multipleFaceCount stats
            + ProctorMonitor.unauthorizedObjectCount stats
            <= ProctorMonitor.totalEvents stats
         /\ 0 <= ProctorMonitor.calculateIntegrityScore stats <= 100).
Proof.
  intros Hc.
  assert (Hall : consistent
                   (fold_left
                      (VideoStream.onmessage InterviewPage.handleNewEvent)
                      messages state)).
  { revert state Hc. induction messages as [|data rest IH]; intros state Hc;
      [exact Hc|].
    simpl. apply IH, onmessage_keeps_consistent, Hc. }
  split; [exact Hall|]. intros stats ->.
  destruct Hall as [Ht Hcounts].
  set (state' := fold_left _ messages state) in *.
  pose proof (countEvents_bounds (map asJson (InterviewPage.events state')))
    as Hb. cbv zeta in Hb. rewrite <- Hcounts in Hb.
  pose proof (filter_length_le
                (fun e => inTaxonomy (DetectionEvent.j_eventType e))
                (map asJson (InterviewPage.events state'))) as Hle.
  rewrite length_map in Hle.
  unfold statsCounts in Hb.
  cbn [lookingAwayCount noFaceCount multipleFaceCount
         unauthorizedObjectCount] in Hb.
  unfold ProctorMonitor.calculateIntegrityScore. repeat split; lia.
Qed.

Lemma X16_witness :
  consistent
    (fold_left (VideoStream.onmessage InterviewPage.handleNewEvent)
       [VideoStream.Message "events"
          (Some [SamplePage.event "looking_away"; SamplePage.event "talking"]);
        VideoStream.Message "status" None;
        VideoStream.Other]
       InterviewPage.initial).
Proof.
  apply (X16_message_stream_keeps_page_consistent
           [VideoStream.Message "events"
              (Some [SamplePage.event "looking_away";
                     SamplePage.event "talking"]);
            VideoStream.Message "status" None;
            VideoStream.Other]
           InterviewPage.initial).
  split; reflexivity.
Defined.

(** ** The monitor's recent events *)

Lemma rev_skipn_firstn {A : Type} (l : list A) (n : nat) :
  rev (skipn (List.length l - n) l) = firstn n (rev l).
Proof.
  symmetry. apply firstn_rev.
Qed.

(** X17: the monitor lists the ten latest events, newest first: its list is
    the first ten of the events reversed, it holds min(10, n) of n events,
    and right after an event arrives that event is at its head. *)
Theorem X17_recent_events_are_latest_first {A : Type}
    (events : list A) (latest : A) :
  Monitor.recentEvents events = firstn 10 (rev events)
  /\ List.length (Monitor.recentEvents events)
     = Nat.min 10 (List.length events)
  /\ Monitor.recentEvents (events ++ [latest])
     = latest :: firstn 9 (rev events).
Proof.
  unfold Monitor.recentEvents. rewrite !rev_skipn_firstn.
  split; [reflexivity|]. split.
  - rewrite length_firstn, length_rev. reflexivity.
  - rewrite rev_app_distr. reflexivity.
Qed.

(** ** The dashboard: merging the two session lists *)

Lemma find_byId_none id (l : list Dashboard.Session) :
  find (byId id) l = None <-> ~ In id (ids l).
Proof.
  induction l as [|x l IH]; simpl; [tauto|].
  unfold byId at 1. destruct (String.eqb (Dashboard.session_id x) id) eqn:E.
  - apply String.eqb_eq in E. split; [discriminate | tauto].
  - apply String.eqb_neq in E. rewrite IH. tauto.
Qed.

Lemma find_byId_app id (a b : list Dashboard.Session) :
  find (byId id) (a ++ b)
  = match find (byId id) a with
    | Some s => Some s
    | None => find (byId id) b
    end.
Proof.
  induction a as [|x a IH]; simpl; [reflexivity|].
  destruct (byId id x); [reflexivity | exact IH].
Qed.

Lemma keepFirst_run (l : list Dashboard.Session) :
  forall acc,
    NoDup (ids acc) ->
    NoDup (ids (fold_left Dashboard.keepFirst l acc))
    /\ (forall id,
           find (byId id) (fold_left Dashboard.keepFirst l acc)
           = match find (byId id) acc with
             | Some s => Some s
             | None => find (byId id) l
             end)
    /\ (List.length (fold_left Dashboard.keepFirst l acc)
        <= List.length acc + List.length l)%nat
    /\ (List.length acc <= List.length (fold_left Dashboard.keepFirst l acc))%nat.
Proof.
  induction l as [|x l IH]; intros acc Hnd; simpl.
  - repeat split; [exact Hnd | | lia | lia].
    intros id. destruct (find (byId id) acc); reflexivity.
  - unfold Dashboard.keepFirst at 2 4 6 8.
    fold (byId (Dashboard.session_id x)).
    destruct (find (byId (Dashboard.session_id x)) acc) as [existing|] eqn:Hx.
    + destruct (IH acc Hnd) as (H1 & H2 & H3 & H4).
      repeat split; [exact H1 | | lia | lia].
      intros id. rewrite H2.
      destruct (find (byId id) acc) as [s|] eqn:Hid; [reflexivity|].
      unfold byId at 2. destruct (String.eqb (Dashboard.session_id x) id) eqn:E;
        [|reflexivity].
      apply String.eqb_eq in E. subst id. congruence.
    + assert (Hnd' : NoDup (ids (acc ++ [x]))).
      { unfold ids. rewrite map_app. simpl.
        apply NoDup_app; [exact Hnd | repeat constructor; simpl; tauto |].
        intros y Hy [<-|[]]. apply find_byId_none in Hx. exact (Hx Hy). }
      destruct (IH (acc ++ [x]) Hnd') as (H1 & H2 & H3 & H4).
      rewrite length_app in H3, H4. simpl in H3, H4.
      repeat split; [exact H1 | | lia | lia].
      intros id. rewrite H2, find_byId_app. simpl.
      destruct (find (byId id) acc); [reflexivity|].
      destruct (byId id x); reflexivity.
Qed.

Lemma in_ids_find id (l : list Dashboard.Session) :
  In id (ids l) <-> find (byId id) l <> None.
Proof.
  pose proof (find_byId_none id l) as H.
  destruct (find (byId id) l) eqn:E.
  - split; [discriminate|]. intros _.
    destruct (in_dec String.string_dec id (ids l)) as [Hin|Hout];
      [exact Hin|]. apply H in Hout. discriminate.
  - split; [|congruence]. intros Hin. exfalso. exact (proj1 H eq_refl Hin).
Qed.

(** X18: the dashboard's list has one entry per session id: no id appears
    twice in it, an id appears in it exactly when it appears in the merged
    input, it is no longer than the input, and it is empty only when the
    input is. *)
Theorem X18_unique_sessions_have_distinct_ids
    (allSessions : list Dashboard.Session) :
  NoDup (ids (Dashboard.uniqueSessions allSessions))
  /\ (forall id,
         In id (ids (Dashboard.uniqueSessions allSessions))
         <-> In id (ids allSessions))
  /\ (List.length (Dashboard.uniqueSessions allSessions)
      <= List.length allSessions)%nat
  /\ (Dashboard.uniqueSessions allSessions = [] <-> allSessions = []).
Proof.
  unfold Dashboard.uniqueSessions.
  destruct (keepFirst_run allSessions [] (NoDup_nil _)) as (H1 & H2 & H3 & _).
  simpl in H2, H3. split; [exact H1|]. split; [|split; [exact H3|]].
  - intros id. rewrite !in_ids_find, H2. reflexivity.
  - split.
    + intros Hempty. destruct allSessions as [|x rest]; [reflexivity|].
      specialize (H2 (Dashboard.session_id x)). rewrite Hempty in H2.
      simpl in H2. unfold byId in H2. rewrite String.eqb_refl in H2.
      discriminate.
    + intros ->. reflexivity.
Qed.

(** X19: for every id the dashboard shows the first session of the merged
    input that has it.  With both sources answering, a session the backend
    lists is the one shown, and a session only the database lists is shown
    converted, tagged as coming from the database. *)
Theorem X19_first_session_of_an_id_is_shown
    (backendSessions : list Dashboard.Session)
    (mongoSessions : list Dashboard.MongoSession) (id : string) :
  (forall allSessions,
      find (byId id) (Dashboard.uniqueSessions allSessions)
      = find (byId id) allSessions)
  /\ find (byId id)
       (fst (Dashboard.fetchSessions (Dashboard.Sessions backendSessions)
               (Dashboard.Sessions mongoSessions)))
     = match find (byId id) backendSessions with
       | Some session => Some session
       | None =>
           option_map Dashboard.converted
             (find (fun session =>
                      String.eqb (Dashboard.sessionId session) id)
                mongoSessions)
       end.
Proof.
  assert (Hfirst : forall allSessions,
             find (byId id) (Dashboard.uniqueSessions allSessions)
             = find (byId id) allSessions).
  { intros allSessions. unfold Dashboard.uniqueSessions.
    destruct (keepFirst_run allSessions [] (NoDup_nil _)) as (_ & H2 & _).
    exact (H2 id). }
  split; [exact Hfirst|].
  unfold Dashboard.fetchSessions. cbn [fst].
  rewrite Hfirst, find_byId_app.
  destruct (find (byId id) backendSessions); [reflexivity|].
  induction mongoSessions as [|m rest IH]; simpl; [reflexivity|].
  unfold byId at 1. cbn [Dashboard.converted Dashboard.session_id].
  destruct (String.eqb (Dashboard.sessionId m) id); [reflexivity | exact IH].
Qed.

Lemma keepFirst_distinct (l : list Dashboard.Session) :
  forall acc,
    NoDup (ids (acc ++ l)) ->
    fold_left Dashboard.keepFirst l acc = acc ++ l.
Proof.
  induction l as [|x l IH]; intros acc Hnd; simpl.
  - now rewrite app_nil_r.
  - assert (Hx : find (byId (Dashboard.session_id x)) acc = None).
    { apply find_byId_none. intros Hin.
      unfold ids in Hnd. rewrite map_app in Hnd. simpl in Hnd.
      apply NoDup_remove_2 in Hnd. apply Hnd, in_or_app. left. exact Hin. }
    unfold Dashboard.keepFirst at 2.
    fold (byId (Dashboard.session_id x)). rewrite Hx.
    rewrite IH; rewrite <- app_assoc; [reflexivity | exact Hnd].
Qed.

(** X20: removing duplicates changes nothing on a list whose ids are
    already distinct, so doing it twice is doing it once. *)
Theorem X20_unique_sessions_fixes_distinct_lists
    (allSessions : list Dashboard.Session) :
  (NoDup (ids allSessions) -> Dashboard.uniqueSessions allSessions = allSessions)
  /\ Dashboard.uniqueSessions (Dashboard.uniqueSessions allSessions)
     = Dashboard.uniqueSessions allSessions.
Proof.
  assert (Hfix : forall l, NoDup (ids l) -> Dashboard.uniqueSessions l = l).
  { intros l Hnd. unfold Dashboard.uniqueSessions.
    now rewrite keepFirst_distinct. }
  split; [apply Hfix|]. apply Hfix.
  unfold Dashboard.uniqueSessions.
  exact (proj1 (keepFirst_run allSessions [] (NoDup_nil _))).
Qed.

Lemma X20_witness :
  Dashboard.uniqueSessions
    [Dashboard.mkSession "s1" "Alice" "2023-11-14" "active" 0 0 None;
     Dashboard.mkSession "s2" "Bob" "2023-11-15" "completed" 65 3
       (Some Dashboard.mongodb)]
  = [Dashboard.mkSession "s1" "Alice" "2023-11-14" "active" 0 0 None;
     Dashboard.mkSession "s2" "Bob" "2023-11-15" "completed" 65 3
       (Some Dashboard.mongodb)].
Proof.
  apply (proj1 (X20_unique_sessions_fixes_distinct_lists _)).
  repeat constructor; simpl; intuition discriminate.
Defined.

(** ** The dashboard: durations *)

Lemma two_digits (n : nat) :
  (n < 60)%nat ->
  Dashboard.padStart 2 "0" (decimal (Z.of_nat n))
  = ((if Z.ltb (Z.of_nat n) 10 then "0" else "") ++ decimal (Z.of_nat n))%string
  /\ String.length (Dashboard.padStart 2 "0" (decimal (Z.of_nat n))) = 2%nat.
Proof.
  intros Hn.
  do 60 (destruct n as [|n]; [vm_compute; split; reflexivity|]).
  lia.
Qed.

(** X21: a duration of a whole number of seconds from 0 up to the largest
    whole number a JavaScript number counts exactly (2^53 - 1) is shown as
    the minutes, a colon, and the seconds left over, below 60, always as
    two characters: a zero is put in front of a single digit. *)
Theorem X21_duration_shows_two_digit_seconds (seconds : Z) :
  0 <= seconds <= Dashboard.MAX_SAFE_INTEGER ->
  Dashboard.formatDuration seconds
  = Some (decimal (seconds / 60) ++ ":"
          ++ (if Z.ltb (seconds mod 60) 10 then "0" else "")
          ++ decimal (seconds mod 60))%string
  /\ String.length
       ((if Z.ltb (seconds mod 60) 10 then "0" else "")
        ++ decimal (seconds mod 60))%string = 2%nat
  /\ 0 <= seconds mod 60 < 60
  /\ 60 * (seconds / 60) + seconds mod 60 = seconds.
Proof.
  intros Hs.
  pose proof (Z.mod_pos_bound seconds 60 ltac:(lia)) as Hr.
  pose proof (two_digits (Z.to_nat (seconds mod 60)) ltac:(lia)) as [Hpad Hlen].
  rewrite Z2Nat.id in Hpad, Hlen by lia.
  unfold Dashboard.formatDuration.
  replace (Z.abs seconds <=? Dashboard.MAX_SAFE_INTEGER) with true
    by (symmetry; apply Z.leb_le; lia).
  rewrite Z.rem_mod_nonneg by lia.
  rewrite Hpad in Hlen |- *.
  split; [reflexivity|]. split; [exact Hlen|]. split; [lia|].
  pose proof (Z.div_mod seconds 60 ltac:(lia)). lia.
Qed.

Lemma X21_witness :
  Dashboard.formatDuration 125 = Some "2:05".
Proof.
  destruct (X21_duration_shows_two_digit_seconds 125) as (Hshown & _);
    [unfold Dashboard.MAX_SAFE_INTEGER; lia|].
  rewrite Hshown. reflexivity.
Defined.

(** ** The stored score after one batch *)

(** X22: after an accepted batch for a stored session whose counters are
    not negative, the stored [integrityScore] is never below the contract
    score of the session's counters; the two are equal when the counters
    were all zero before the batch, as for the first batch of a new
    session. *)
Theorem X22_stored_score_bounds_cumulative_score
    (db : Db) (sessionId : string) (s : ProctorSession.t)
    (events : list DetectionEvent.json) (env : nat -> Entropy) :
  lookup db sessionId = Some s ->
  events <> [] ->
  0 <= ProctorSession.lookingAwayCount s ->
  0 <= ProctorSession.noFaceCount s ->
  0 <= ProctorSession.multipleFaceCount s ->
  0 <= ProctorSession.unauthorizedObjectCount s ->
  exists s',
    lookup (submit db sessionId events env) sessionId = Some s'
    /\ score (counters s') <= ProctorSession.integrityScore s'
    /\ (counters s = noCounts ->
        ProctorSession.integrityScore s' = score (counters s')).
Proof.
  intros Hs Hne Hla Hnf Hmf Huo.
  eexists. split; [apply submit_lookup; [exact Hne | exact Hs]|].
  rewrite counters_applyUpdate.
  cbn [applyUpdate ProctorSession.integrityScore].
  split.
  - unfold score, Spec.score, scoreOf, plus, counters.
    cbn [lookingAwayCount noFaceCount multipleFaceCount
           unauthorizedObjectCount]. lia.
  - intros ->. now rewrite plus_noCounts_l, scoreOf_score.
Qed.

Lemma X22_witness :
  exists s',
    lookup (submit Sample.afterA Sample.aliceId
              [Sample.no_face; Sample.no_face; Sample.multiple_faces]
              Sample.env) Sample.aliceId = Some s'
    /\ score (counters s') <= ProctorSession.integrityScore s'.
Proof.
  destruct (X22_stored_score_bounds_cumulative_score Sample.afterA
              Sample.aliceId
              (applyUpdate 1 (mkCounts 1 0 0 0) 98
                 (SessionsRoute.newSession Sample.aliceId "Alice"
                    (DateAt 1700000000000)))
              [Sample.no_face; Sample.no_face; Sample.multiple_faces]
              Sample.env)
    as (s' & Hs' & Hle & _);
    [vm_compute; reflexivity | discriminate | simpl; lia | simpl; lia
     | simpl; lia | simpl; lia |].
  exists s'. split; [exact Hs' | exact Hle].
Defined.

(** ** The dashboard: the empty list *)


